(** * Multi-agent product recommendation core: shallow embedding and properties

    The development embeds the parts of the Python sources that decide the
    behaviour of the hybrid ranker ([product_search_agent.py]), the EMI and
    payment-option tools ([buyplan_tools.py]), the review analyzer
    ([review_analyzer_agent.py], [review_tools.py], [cache.py]), the price
    trend tool ([price_tools.py]) and the orchestrator
    ([orchestrator_agent.py]).

    Conventions of the embedding:
    - Python [float] values are modelled by exact rationals [Q]; [round(x, 2)]
      is rounding to the nearest multiple of 1/100, ties to even.
    - Python dictionaries used as structures are records; a key that may be
      absent is an [option] field.  Dictionaries used as maps are [gmap]s, or
      association lists in insertion order where the order is observable.
    - Python exceptions are values of the error monad [py].
    - Answers of the language model, the random generator and the clock are
      explicit inputs of the functions that consult them. *)

From Stdlib Require Import QArith Qround Lqa ZArith Lia Sorted Ascii String.
From stdpp Require Import base list gmap strings pretty.

(** ** Python primitives *)

Module Py.

(** Outcome of a computation that may raise. *)
Inductive py (A : Type) : Type :=
| Return (a : A)
| Raise (msg : string).
Arguments Return {A} a.
Arguments Raise {A} msg.

Definition bind {A B} (m : py A) (k : A → py B) : py B :=
  match m with
  | Return a => k a
  | Raise e => Raise e
  end.

(** [a / b] on floats: raises [ZeroDivisionError] when [b] is zero. *)
Definition truediv (a b : Q) : py Q :=
  if Qeq_bool b 0 then Raise "float division by zero" else Return (a / b)%Q.

(** [a / b] on integers: true division, raises when [b] is zero. *)
Definition int_truediv (a b : Z) : py Q :=
if Z.eqb b 0 then Raise "division by zero"
else Return (inject_Z a / inject_Z b)%Q.

(** Round to the nearest integer, ties to even. *)
Definition round_half_even (x : Q) : Z :=
  let f := Qfloor x in
  match (x - inject_Z f ?= 1 # 2)%Q with
  | Lt => f
  | Gt => (f + 1)%Z
  | Eq => if Z.even f then f else (f + 1)%Z
  end.

(** [round(x, 2)]. *)
Definition round2 (x : Q) : Q :=
  (inject_Z (round_half_even (x * 100)) / 100)%Q.

(** [round(x, 1)] and [round(x, 4)] are not needed by the properties below. *)

Definition Qltb (a b : Q) : bool := negb (Qle_bool b a).

(** [min(l)], [max(l)] and [sum(l)] on a list of floats; the first argument
    of the first two is the head of the list.  As in Python, the first of
    several equal extrema is kept. *)
Definition Qmin_list (x : Q) (l : list Q) : Q :=
  foldl (λ best y, if Qltb y best then y else best) x l.
Definition Qmax_list (x : Q) (l : list Q) : Q :=
  foldl (λ best y, if Qltb best y then y else best) x l.
Definition Qsum (l : list Q) : Q := foldl Qplus 0%Q l.

(** Stable sorting, as [sorted] and [list.sort] do it.  [later x y] says
    that [x] must be placed strictly after [y]; elements that are not
    ordered by [later] keep their relative order. *)
Section StableSort.
Context {A : Type} (later : A → A → bool).

Fixpoint insert_stable (x : A) (l : list A) : list A :=
  match l with
  | [] => [x]
  | y :: l' => if later x y then y :: insert_stable x l' else x :: l
  end.

Definition sort_stable (l : list A) : list A :=
  foldr insert_stable [] l.

Lemma insert_stable_perm x l : insert_stable x l ≡ₚ x :: l.
Proof.
  induction l as [|y l IH]; simpl; [done|].
  destruct (later x y); [|done].
  rewrite IH. apply Permutation_swap.
Qed.

Lemma sort_stable_perm l : sort_stable l ≡ₚ l.
Proof.
  induction l as [|x l IH]; simpl; [done|].
  rewrite insert_stable_perm. by rewrite IH.
Qed.
End StableSort.

(** [sorted(l, key=key, reverse=True)] with a numeric key. *)
Definition sorted_desc {A} (key : A → Q) : list A → list A :=
  sort_stable (λ x y, Qltb (key x) (key y)).

Lemma Qltb_lt a b : Qltb a b = true ↔ (a < b)%Q.
Proof.
  unfold Qltb. rewrite negb_true_iff, <- not_true_iff_false, Qle_bool_iff.
  split; [apply Qnot_le_lt | apply Qlt_not_le].
Qed.

Lemma Qltb_ge a b : Qltb a b = false ↔ (b <= a)%Q.
Proof.
  unfold Qltb. rewrite negb_false_iff. apply Qle_bool_iff.
Qed.

Section SortedDesc.
Context {A : Type} (key : A → Q).

Definition desc (x y : A) : Prop := (key y <= key x)%Q.

Lemma insert_desc_sorted x l :
  StronglySorted desc l →
  StronglySorted desc (insert_stable (λ x y, Qltb (key x) (key y)) x l).
Proof.
  induction 1 as [|y l Hl IH Hy]; simpl.
  - repeat constructor.
  - destruct (Qltb (key x) (key y)) eqn:E.
    + constructor; [done|].
      apply Qltb_lt in E.
      rewrite (insert_stable_perm _ x l).
      constructor; [unfold desc; lra | done].
    + apply Qltb_ge in E.
      constructor; [by constructor|].
      constructor; [done|].
      eapply Forall_impl; [exact Hy|].
      unfold desc; intros z Hz; simpl in *; lra.
Qed.

Lemma sorted_desc_sorted l : StronglySorted desc (sorted_desc key l).
Proof.
  induction l as [|x l IH]; simpl; [constructor|].
  by apply insert_desc_sorted.
Qed.

Lemma sorted_desc_perm l : sorted_desc key l ≡ₚ l.
Proof. apply sort_stable_perm. Qed.
End SortedDesc.

(** ** Dictionaries whose iteration order is observed

    A Python [dict] keeps its keys in insertion order; assigning to an
    existing key keeps the key's position. *)
Section Dict.
Context {V : Type}.

Definition dict : Type := list (Z * V).

Fixpoint dict_get (k : Z) (d : dict) : option V :=
  match d with
  | [] => None
  | (k', v) :: d' => if Z.eqb k k' then Some v else dict_get k d'
  end.

Fixpoint dict_set (k : Z) (v : V) (d : dict) : dict :=
  match d with
  | [] => [(k, v)]
  | (k', v') :: d' =>
      if Z.eqb k k' then (k, v) :: d' else (k', v') :: dict_set k v d'
  end.

Definition dict_keys (d : dict) : list Z := d.*1.
Definition dict_values (d : dict) : list V := d.*2.

Lemma dict_get_set k k' v d :
  dict_get k (dict_set k' v d) = if Z.eqb k k' then Some v else dict_get k d.
Proof.
  induction d as [|[k0 v0] d IH]; simpl.
  - by destruct (Z.eqb_spec k k').
  - destruct (Z.eqb_spec k' k0) as [->|Hne]; simpl.
    + by destruct (Z.eqb_spec k k0).
    + destruct (Z.eqb_spec k k0) as [->|]; [|done].
      destruct (Z.eqb_spec k0 k'); congruence.
Qed.

Lemma dict_get_Some k v d :
  dict_get k d = Some v → (k, v) ∈ d.
Proof.
  induction d as [|[k0 v0] d IH]; simpl; [done|].
  destruct (Z.eqb_spec k k0) as [->|].
  - intros [= ->]. left.
  - intros. right. auto.
Qed.

Lemma dict_get_None k d : dict_get k d = None ↔ k ∉ dict_keys d.
Proof.
  unfold dict_keys.
  induction d as [|[k0 v0] d IH]; simpl.
  - split; [intros _; apply not_elem_of_nil | done].
  - rewrite not_elem_of_cons. destruct (Z.eqb_spec k k0) as [->|].
    + split; [done | intros [? _]; done].
    + rewrite IH. tauto.
Qed.

Lemma dict_keys_set k v d :
  ∀ k', k' ∈ dict_keys (dict_set k v d) ↔ k' = k ∨ k' ∈ dict_keys d.
Proof.
  unfold dict_keys.
  induction d as [|[k0 v0] d IH]; intros k'; simpl.
  - rewrite list_elem_of_singleton, elem_of_nil. tauto.
  - destruct (Z.eqb_spec k k0) as [->|]; simpl.
    + rewrite !elem_of_cons. tauto.
    + rewrite !elem_of_cons, IH. tauto.
Qed.

Lemma dict_set_NoDup k v d :
  NoDup (dict_keys d) → NoDup (dict_keys (dict_set k v d)).
Proof.
  unfold dict_keys.
  induction d as [|[k0 v0] d IH]; simpl; intros Hd.
  - apply NoDup_singleton.
  - apply NoDup_cons in Hd as [Hk0 Hd].
    destruct (Z.eqb_spec k k0) as [->|]; simpl.
    + by apply NoDup_cons.
    + apply NoDup_cons. split; [|auto].
      intros Hin. apply (dict_keys_set k v d) in Hin as [?|?]; done.
Qed.

Lemma dict_lookup_unique k v d :
  NoDup (dict_keys d) → (k, v) ∈ d → dict_get k d = Some v.
Proof.
  unfold dict_keys.
  induction d as [|[k0 v0] d IH]; simpl; intros Hd Hin.
  - by apply elem_of_nil in Hin.
  - apply NoDup_cons in Hd as [Hk0 Hd].
    apply elem_of_cons in Hin as [[= -> ->]|Hin].
    + by rewrite Z.eqb_refl.
    + destruct (Z.eqb_spec k k0) as [->|]; [|auto].
      exfalso. apply Hk0. apply list_elem_of_fmap. by exists (k0, v).
Qed.
End Dict.
Arguments dict V : clear implicits.

(** [d[key]] on a key that may be absent: raises [KeyError]. *)
Definition getitem {A} (o : option A) (key : string) : py A :=
match o with
| Some a => Return a
| None => Raise key
end.

#[export] Instance py_ret : MRet py := λ A a, Return a.
#[export] Instance py_bind : MBind py := λ A B k m, bind m k.

(** Truth value of a float and of an optional float ([None] and [0.0] are
    false). *)
Definition truthy (q : Q) : bool := negb (Qeq_bool q 0).
Definition truthy_opt (o : option Q) : bool :=
match o with
| Some q => truthy q
| None => false
end.

(** [sub in s] on strings. *)
Fixpoint contains (sub s : string) : bool :=
if String.prefix sub s then true
else match s with
     | EmptyString => false
     | String _ s' => contains sub s'
     end.

(** [s.lower()] on ASCII letters. *)
Definition lower_char (c : ascii) : ascii :=
let n := nat_of_ascii c in
if (65 <=? n)%nat && (n <=? 90)%nat then ascii_of_nat (n + 32) else c.

Fixpoint lower (s : string) : string :=
match s with
| EmptyString => EmptyString
| String c s' => String (lower_char c) (lower s')
end.

(** [s.isdigit()] restricted to ASCII, and [int(s)] on such strings. *)
Definition is_digit (c : ascii) : bool :=
let n := nat_of_ascii c in (48 <=? n)%nat && (n <=? 57)%nat.

Fixpoint all_digits (s : string) : bool :=
match s with
| EmptyString => true
| String c s' => is_digit c && all_digits s'
end.

Definition isdigit (s : string) : bool :=
match s with
| EmptyString => false
| _ => all_digits s
end.

Fixpoint int_of_digits (acc : Z) (s : string) : Z :=
match s with
| EmptyString => acc
| String c s' => int_of_digits (acc * 10 + Z.of_nat (nat_of_ascii c - 48)) s'
end.





End Py.
Import Py.

(** ** Hybrid ranker ([product_search_agent.py]) *)

Module Search.

(** A result dictionary of either search leg.  The semantic leg
    ([search_similar_products]) sets [similarity_score]; the predicate leg
    ([_traditional_search]) sets [search_score] to 0.3 and no similarity. *)
Record Hit : Type := {
  product_id : Z;
  name : string;
  price : Q;
  rating : Q;
  review_count : Z;
  similarity_score : option Q;
  search_score : option Q
}.

(** An entry of [combined]: the copied result with its [final_score]. *)
Record Candidate : Type := {
  result : Hit;
  final_score : Q
}.

Definition candidate_id (c : Candidate) : Z := product_id (result c).

(** [result.get('similarity_score', 0.5)] *)
Definition similarity (r : Hit) : Q := default (1 # 2)%Q (similarity_score r).

(** Body of the first loop: [combined[product_id] = result.copy()] followed
    by the assignment of [final_score]. *)
Definition add_semantic (combined : dict Candidate) (r : Hit) : dict Candidate :=
  dict_set (product_id r)
    {| result := r; final_score := (similarity r * (7 # 10))%Q |} combined.

(** Body of the second loop. *)
Definition add_traditional (combined : dict Candidate) (r : Hit) : dict Candidate :=
  match dict_get (product_id r) combined with
  | Some c =>
      dict_set (product_id r)
        {| result := result c; final_score := (final_score c + (3 # 10))%Q |}
        combined
  | None =>
      dict_set (product_id r)
        {| result := r; final_score := (3 # 10)%Q |} combined
  end.

(** The dictionary [combined] once both loops have run. *)
Definition combined_scores (semantic_results traditional_results : list Hit)
  : dict Candidate :=
  foldl add_traditional (foldl add_semantic [] semantic_results)
    traditional_results.

Definition _combine_and_rank
    (semantic_results traditional_results : list Hit) (limit : nat)
  : list Candidate :=
  take limit
    (sorted_desc final_score
       (dict_values (combined_scores semantic_results traditional_results))).

(** *** Facts about the two loops *)

Definition keyed (d : dict Candidate) : Prop :=
  ∀ k c, (k, c) ∈ d → candidate_id c = k.

Lemma dict_set_elem {V} k (v : V) d kv :
  kv ∈ dict_set k v d → kv = (k, v) ∨ kv ∈ d.
Proof.
  induction d as [|[k0 v0] d IH]; simpl.
  - rewrite list_elem_of_singleton. auto.
  - destruct (Z.eqb_spec k k0) as [->|]; rewrite !elem_of_cons; [tauto|].
    intros [?|?]; [tauto|]. destruct IH; auto.
Qed.

Lemma add_semantic_keyed d r : keyed d → keyed (add_semantic d r).
Proof.
  intros Hd k c Hin. apply dict_set_elem in Hin as [[= -> ->]|Hin]; [done|].
  by apply Hd.
Qed.

Lemma add_traditional_keyed d r : keyed d → keyed (add_traditional d r).
Proof.
  intros Hd k c. unfold add_traditional.
  destruct (dict_get (product_id r) d) as [c0|] eqn:E; intros Hin;
    apply dict_set_elem in Hin as [[= -> ->]|Hin]; try by apply Hd.
  - apply dict_get_Some in E. apply (Hd _ _ E).
  - done.
Qed.

Lemma add_traditional_keys d r k :
  k ∈ dict_keys (add_traditional d r) ↔ k = product_id r ∨ k ∈ dict_keys d.
Proof.
  unfold add_traditional.
  destruct (dict_get (product_id r) d); apply dict_keys_set.
Qed.

Lemma add_traditional_NoDup d r :
  NoDup (dict_keys d) → NoDup (dict_keys (add_traditional d r)).
Proof.
  unfold add_traditional.
  destruct (dict_get (product_id r) d); apply dict_set_NoDup.
Qed.

Lemma semantic_loop_inv l : ∀ d,
  keyed d → NoDup (dict_keys d) →
  let d' := foldl add_semantic d l in
  keyed d' ∧ NoDup (dict_keys d') ∧
  ∀ k, k ∈ dict_keys d' ↔ k ∈ dict_keys d ∨ k ∈ product_id <$> l.
Proof.
  induction l as [|r l IH]; simpl; intros d Hk Hn.
  - split_and!; [done..|]. intros k. rewrite elem_of_nil. tauto.
  - destruct (IH (add_semantic d r)) as (H1 & H2 & H3);
      [by apply add_semantic_keyed | by apply dict_set_NoDup |].
    split_and!; [done..|]. intros k. rewrite H3.
    unfold add_semantic. rewrite dict_keys_set, elem_of_cons. tauto.
Qed.

Lemma traditional_loop_inv l : ∀ d,
  keyed d → NoDup (dict_keys d) →
  let d' := foldl add_traditional d l in
  keyed d' ∧ NoDup (dict_keys d') ∧
  ∀ k, k ∈ dict_keys d' ↔ k ∈ dict_keys d ∨ k ∈ product_id <$> l.
Proof.
  induction l as [|r l IH]; simpl; intros d Hk Hn.
  - split_and!; [done..|]. intros k. rewrite elem_of_nil. tauto.
  - destruct (IH (add_traditional d r)) as (H1 & H2 & H3);
      [by apply add_traditional_keyed | by apply add_traditional_NoDup |].
    split_and!; [done..|]. intros k. rewrite H3.
    rewrite add_traditional_keys, elem_of_cons. tauto.
Qed.

Lemma semantic_loop_other l : ∀ d k,
  k ∉ product_id <$> l → dict_get k (foldl add_semantic d l) = dict_get k d.
Proof.
  induction l as [|r l IH]; simpl; intros d k Hk; [done|].
  apply not_elem_of_cons in Hk as [Hne Hk].
  rewrite IH by done. unfold add_semantic. rewrite dict_get_set.
  by destruct (Z.eqb_spec k (product_id r)).
Qed.

Lemma semantic_loop_hit l : ∀ d r,
  NoDup (product_id <$> l) → r ∈ l →
  dict_get (product_id r) (foldl add_semantic d l)
  = Some {| result := r; final_score := (similarity r * (7 # 10))%Q |}.
Proof.
  induction l as [|r0 l IH]; simpl; intros d r Hn Hin.
  - by apply elem_of_nil in Hin.
  - apply NoDup_cons in Hn as [Hr0 Hn].
    apply elem_of_cons in Hin as [->|Hin].
    + rewrite semantic_loop_other by done.
      unfold add_semantic. by rewrite dict_get_set, Z.eqb_refl.
    + by apply IH.
Qed.

Lemma traditional_loop_other l : ∀ d k,
  k ∉ product_id <$> l → dict_get k (foldl add_traditional d l) = dict_get k d.
Proof.
  induction l as [|r l IH]; simpl; intros d k Hk; [done|].
  apply not_elem_of_cons in Hk as [Hne Hk].
  rewrite IH by done. unfold add_traditional.
  destruct (dict_get (product_id r) d); rewrite dict_get_set;
    by destruct (Z.eqb_spec k (product_id r)).
Qed.

Lemma traditional_loop_hit l : ∀ d r,
  NoDup (product_id <$> l) → r ∈ l →
  dict_get (product_id r) (foldl add_traditional d l)
  = Some match dict_get (product_id r) d with
         | Some c => {| result := result c;
                        final_score := (final_score c + (3 # 10))%Q |}
         | None => {| result := r; final_score := (3 # 10)%Q |}
         end.
Proof.
  induction l as [|r0 l IH]; simpl; intros d r Hn Hin.
  - by apply elem_of_nil in Hin.
  - apply NoDup_cons in Hn as [Hr0 Hn].
    apply elem_of_cons in Hin as [->|Hin].
    + rewrite traditional_loop_other by done.
      unfold add_traditional.
      destruct (dict_get (product_id r0) d);
        by rewrite dict_get_set, Z.eqb_refl.
    + rewrite IH by done.
      assert (product_id r ≠ product_id r0) as Hne.
      { intros Heq. apply Hr0. rewrite <- Heq.
        apply list_elem_of_fmap. by exists r. }
      unfold add_traditional at 1.
      destruct (dict_get (product_id r0) d); rewrite dict_get_set;
        by destruct (Z.eqb_spec (product_id r) (product_id r0)).
Qed.

End Search.

(** ** Catalog ([models.py]) *)

Module Catalog.

(** Rows of the four tables the core reads; nullable columns are options. *)
Record Product : Type := {
  id : Z;
  name : string;
  brand : option string;
  category : string;
  subcategory : option string;
  price : Q;
  mrp : option Q;
  rating : option Q;
  review_count : option Z;
  in_stock : option bool
}.

Record Review : Type := {
  review_product_id : Z;
  review_rating : Z;
  review_text : option string;
  helpful_count : Z;
  verified_purchase : bool
}.

(** A point in time is the number of seconds since the epoch; the ISO text
    of a timestamp is represented by the timestamp itself (the texts compare
    like the timestamps) and a [YYYY-MM-DD] label by its day number. *)
Abbreviation timestamp := Z (only parsing).
Definition day_label (t : timestamp) : Z := (t `div` 86400)%Z.

Record PriceHistory : Type := {
  ph_product_id : Z;
  ph_price : Q;
  recorded_at : timestamp
}.

Record CardOffer : Type := {
  offer_id : Z;
  offer_product_id : Z;
  bank_name : string;
  offer_type : option string;
  discount_amount : option Q;
  discount_percentage : option Q;
  cashback_amount : option Q;
  min_transaction_amount : option Q;
  emi_tenure : option string;
  is_no_cost_emi : bool;
  offer_description : option string;
  valid_from : option timestamp;
  valid_till : option timestamp
}.

Record Db : Type := {
  products : list Product;
  reviews : list Review;
  price_history : list PriceHistory;
  card_offers : list CardOffer
}.

(** [db.query(Product).filter(Product.id == product_id).first()] *)
Definition get_product (db : Db) (product_id : Z) : option Product :=
head (filter (λ p, id p = product_id) (products db)).

End Catalog.

(** ** Cache ([cache.py]) *)

Module SimpleCache.

(** The dictionary [self.cache]: key to (value, time of the write). *)
Abbreviation store V := (gmap string (V * Z)) (only parsing).

Section Cache.
Context {V : Type}.

(** [get]: the value if it is younger than the time to live; an expired
    entry is removed. *)
Definition get (ttl : Z) (now : Catalog.timestamp) (key : string) (c : store V)
  : option V * store V :=
match c !! key with
| Some (value, written) =>
    if bool_decide (now - written < ttl)%Z then (Some value, c)
    else (None, delete key c)
| None => (None, c)
end.

Definition set (now : Catalog.timestamp) (key : string) (value : V)
    (c : store V) : store V :=
<[key := (value, now)]> c.

Lemma get_hit ttl now key (c : store V) v c' :
  get ttl now key c = (Some v, c') → c' = c ∧ ∃ t, c !! key = Some (v, t).
Proof.
unfold get. destruct (c !! key) as [[v0 t]|]; [|done].
case_bool_decide; [|done]. intros [= -> <-]. eauto.
Qed.

Lemma get_store_sub ttl now key (c : store V) :
  (get ttl now key c).2 ⊆ c.
Proof.
unfold get. destruct (c !! key) as [[v0 t]|]; [|done].
case_bool_decide; simpl; [done|]. apply delete_subseteq.
Qed.

Lemma get_miss_key ttl now key (c : store V) :
  c !! key = None → get ttl now key c = (None, c).
Proof. intros Hk. unfold get. by rewrite Hk. Qed.
End Cache.

End SimpleCache.

(** ** Review tools ([review_tools.py]) *)

Module ReviewTools.

(** A review dictionary as [get_reviews] returns it. *)
Record ReviewEntry : Type := {
  rating : Z;
  text : option string;
  verified : bool;
  helpful_count : Z
}.

Record Themes : Type := {
  positive : list string;
  negative : list string
}.

Record Stats : Type := {
  total_reviews : Z;
  average_rating : Q;
  rating_distribution : gmap Z Z;
  rating_distribution_pct : gmap Z Q;
  verified_purchases : Z
}.

(** All review rows of a product. *)
Definition product_reviews (db : Catalog.Db) (product_id : Z)
  : list Catalog.Review :=
filter (λ r, Catalog.review_product_id r = product_id) (Catalog.reviews db).

Definition get_reviews (db : Catalog.Db) (product_id : Z) (limit : nat)
  : list ReviewEntry :=
(λ r, {| rating := Catalog.review_rating r;
         text := Catalog.review_text r;
         verified := Catalog.verified_purchase r;
         helpful_count := Catalog.helpful_count r |}) <$>
  take limit
    (sorted_desc (λ r, inject_Z (Catalog.helpful_count r))
       (product_reviews db product_id)).

(** [distribution[r.rating] = distribution.get(r.rating, 0) + 1] *)
Definition count_rating (distribution : gmap Z Z) (r : Catalog.Review)
  : gmap Z Z :=
<[Catalog.review_rating r :=
    (default 0 (distribution !! Catalog.review_rating r) + 1)%Z]> distribution.

Definition initial_distribution : gmap Z Z :=
<[5%Z := 0%Z]> (<[4%Z := 0%Z]> (<[3%Z := 0%Z]> (<[2%Z := 0%Z]> (<[1%Z := 0%Z]> ∅)))).

Definition empty_stats : Stats :=
{| total_reviews := 0;
   average_rating := 0;
   rating_distribution := ∅;
   rating_distribution_pct := ∅;
   verified_purchases := 0 |}.

Definition sum_Z (l : list Z) : Z := foldl Z.add 0%Z l.

Definition get_review_statistics (db : Catalog.Db) (product_id : Z) : Stats :=
match product_reviews db product_id with
| [] => empty_stats
| rows =>
    let total := Z.of_nat (length rows) in
    let avg_rating :=
      (inject_Z (sum_Z (Catalog.review_rating <$> rows)) / inject_Z total)%Q in
    let distribution := foldl count_rating initial_distribution rows in
    {| total_reviews := total;
       average_rating := round2 avg_rating;
       rating_distribution := distribution;
       rating_distribution_pct :=
         (λ count, (inject_Z count / inject_Z total * 100)%Q) <$> distribution;
       verified_purchases :=
         Z.of_nat (length (filter (λ r, Catalog.verified_purchase r = true) rows)) |}
end.




Lemma sorted_desc_nil {A} (key : A → Q) (l : list A) :
  sorted_desc key l = [] ↔ l = [].
Proof.
split; [|by intros ->].
intros H. apply Permutation_nil_r. rewrite <- H.
symmetry. apply sorted_desc_perm.
Qed.

Lemma get_reviews_nil db product_id :
  get_reviews db product_id 100 = [] ↔ product_reviews db product_id = [].
Proof.
unfold get_reviews. split.
- intros H. apply fmap_nil_inv in H.
  apply (sorted_desc_nil (λ r, inject_Z (Catalog.helpful_count r))).
  destruct (sorted_desc _ _); [done|discriminate H].
- intros ->. done.
Qed.

Lemma total_reviews_length db product_id :
  total_reviews (get_review_statistics db product_id)
  = Z.of_nat (length (product_reviews db product_id)).
Proof.
unfold get_review_statistics. by destruct (product_reviews db product_id).
Qed.


End ReviewTools.

(** ** Review analyzer ([review_analyzer_agent.py]) *)

Module ReviewAnalyzerAgent.

(** The result dictionary of [analyze_reviews], in its three shapes. *)
Record ReviewResult : Type := {
  success : option bool;
  product_id : option Z;
  message : option string;
  error : option string;
  statistics : option ReviewTools.Stats;
  sentiment : option string;
  pros : option (list string);
  cons : option (list string);
  summary : option string;
  trust_score : option Q;
  themes : option ReviewTools.Themes;
  full_analysis : option string
}.

(** The empty dictionary. *)
Definition empty_result : ReviewResult :=
{| success := None; product_id := None; message := None; error := None;
   statistics := None; sentiment := None; pros := None; cons := None;
   summary := None; trust_score := None; themes := None;
   full_analysis := None |}.

Definition no_reviews (pid : Z) : ReviewResult :=
{| success := Some false; product_id := Some pid;
   message := Some "No reviews found for this product"; error := None;
   statistics := None; sentiment := None; pros := None; cons := None;
   summary := None; trust_score := None; themes := None;
   full_analysis := None |}.

Definition failed (e : string) (pid : Z) : ReviewResult :=
{| success := Some false; product_id := Some pid; message := None;
   error := Some e; statistics := None; sentiment := None; pros := None;
   cons := None; summary := None; trust_score := None; themes := None;
   full_analysis := None |}.

(** Truth value of a result dictionary: false exactly for the empty one.
    Every shape built by the agent has the key [success]. *)
Definition truthy_result (r : ReviewResult) : bool :=
bool_decide (is_Some (success r)) || bool_decide (is_Some (product_id r))
|| bool_decide (is_Some (message r)) || bool_decide (is_Some (error r))
|| bool_decide (is_Some (statistics r)) || bool_decide (is_Some (sentiment r))
|| bool_decide (is_Some (pros r)) || bool_decide (is_Some (cons r))
|| bool_decide (is_Some (summary r)) || bool_decide (is_Some (trust_score r))
|| bool_decide (is_Some (themes r)) || bool_decide (is_Some (full_analysis r)).

(** [min(max(score, 0), 1)] *)
Definition clamp_unit (score : Q) : Q :=
let m := if Qltb score 0 then 0%Q else score in
if Qltb 1 m then 1%Q else m.

Definition _calculate_trust_score (stats : ReviewTools.Stats)
    (reviews : list ReviewTools.ReviewEntry) : py Q :=
let total := ReviewTools.total_reviews stats in
let score := (1 # 2)%Q in
verified_ratio ← int_truediv (ReviewTools.verified_purchases stats) total;
let score := (score + verified_ratio * (3 # 10))%Q in
let distribution := ReviewTools.rating_distribution stats in
five_star_ratio ← int_truediv (default 0%Z (distribution !! 5%Z)) total;
one_star_ratio ← int_truediv (default 0%Z (distribution !! 1%Z)) total;
let score :=
  if Qltb five_star_ratio (7 # 10) && Qltb one_star_ratio (3 # 10)
  then (score + (2 # 10))%Q
  else if Qltb (9 # 10) five_star_ratio then (score - (1 # 10))%Q
  else score in
let score :=
  if (50 <? total)%Z then (score + (1 # 10))%Q
  else if (20 <? total)%Z then (score + (5 # 100))%Q
  else score in
mret (clamp_unit score).

(** *** Trust score *)

Lemma clamp_unit_range score :
  (0 <= clamp_unit score)%Q ∧ (clamp_unit score <= 1)%Q.
Proof.
unfold clamp_unit.
destruct (Qltb score 0) eqn:E1.
- change (Qltb 1 0) with false. simpl. split; [apply Qle_refl|by apply Qle_bool_imp_le].
- apply Qltb_ge in E1. destruct (Qltb 1 score) eqn:E2.
  + split; [by apply Qle_bool_imp_le|apply Qle_refl].
  + apply Qltb_ge in E2. by split.
Qed.

Lemma trust_score_range stats reviews t :
  _calculate_trust_score stats reviews = Return t →
  (0 <= t)%Q ∧ (t <= 1)%Q.
Proof.
unfold _calculate_trust_score, int_truediv.
destruct (Z.eqb (ReviewTools.total_reviews stats) 0); [done|].
cbn [mbind py_bind bind mret py_ret]. intros [= <-]. apply clamp_unit_range.
Qed.

(** The score before clamping, from the three ratios and the count. *)
Definition raw_trust_score (verified_ratio five_star_ratio one_star_ratio : Q)
    (total : Z) : Q :=
let score := ((1 # 2) + verified_ratio * (3 # 10))%Q in
let score :=
  if Qltb five_star_ratio (7 # 10) && Qltb one_star_ratio (3 # 10)
  then (score + (2 # 10))%Q
  else if Qltb (9 # 10) five_star_ratio then (score - (1 # 10))%Q
  else score in
if (50 <? total)%Z then (score + (1 # 10))%Q
else if (20 <? total)%Z then (score + (5 # 100))%Q
else score.

Lemma trust_score_returns stats reviews :
  ReviewTools.total_reviews stats ≠ 0%Z →
  let total := ReviewTools.total_reviews stats in
  let ratio (k : Z) := (inject_Z k / inject_Z total)%Q in
  _calculate_trust_score stats reviews
  = Return (clamp_unit
              (raw_trust_score
                 (ratio (ReviewTools.verified_purchases stats))
                 (ratio (default 0%Z (ReviewTools.rating_distribution stats !! 5%Z)))
                 (ratio (default 0%Z (ReviewTools.rating_distribution stats !! 1%Z)))
                 total)).
Proof.
intros Hne. unfold _calculate_trust_score, int_truediv.
destruct (Z.eqb_spec (ReviewTools.total_reviews stats) 0); [done|].
reflexivity.
Qed.

(** What the call of the language model did: it answered, it ran into the
    90 s timeout, or it raised another exception. *)
Inductive llm_outcome : Type :=
| Answered (text : string)
| TimedOut
| Errored (msg : string).

(** One run of [analyze_reviews]: the returned dictionary, the cache after
    the run and the number of calls of the language model. *)
Record Run : Type := {
  result : ReviewResult;
  cache_after : SimpleCache.store ReviewResult;
  llm_calls : nat
}.

Definition cache_key (product_id : Z) : string :=
"review_analysis_" +:+ pretty product_id.

(** Time to live of [review_cache]. *)
Definition review_ttl : Z := 600.

Section Agent.

(** Theme extraction iterates over Python sets of keywords, whose order is
    not fixed; it and the text functions are parameters.  None of them
    raises. *)
Context (extract_themes : list ReviewTools.ReviewEntry → ReviewTools.Themes).
Context (_parse_ai_response :
           string → string * list string * list string * string).
Context (fallback_summary : Q → Z → string).
Context (fallback_text : string → Z → string).

Definition fallback_sentiment (avg_rating : Q) : string :=
if Qle_bool 4 avg_rating then "Positive"
else if Qle_bool 3 avg_rating then "Neutral"
else "Negative".

Definition analyze_reviews (db : Catalog.Db) (now done_at : Catalog.timestamp)
    (llm : llm_outcome) (cache : SimpleCache.store ReviewResult)
    (product_id : Z) : Run :=
let key := cache_key product_id in
let '(cached_result, cache) := SimpleCache.get review_ttl now key cache in
let fresh :=
  let reviews := ReviewTools.get_reviews db product_id 100 in
  let stats := ReviewTools.get_review_statistics db product_id in
  let themes := extract_themes reviews in
  match reviews with
  | [] => {| result := no_reviews product_id; cache_after := cache;
             llm_calls := 0 |}
  | _ :: _ =>
      match llm with
      | TimedOut =>
          match _calculate_trust_score stats reviews with
          | Raise e => {| result := failed e product_id; cache_after := cache;
                          llm_calls := 1 |}
          | Return trust =>
              let avg_rating := ReviewTools.average_rating stats in
              let sentiment := fallback_sentiment avg_rating in
              let r :=
                {| success := Some true;
                   product_id := Some product_id;
                   message := None;
                   error := None;
                   statistics := Some stats;
                   sentiment := Some sentiment;
                   pros := Some (match ReviewTools.positive themes with
                                 | [] => ["Overall positive feedback"]
                                 | l => take 3 l
                                 end);
                   cons := Some (match ReviewTools.negative themes with
                                 | [] => ["Some concerns noted"]
                                 | l => take 2 l
                                 end);
                   summary := Some (fallback_summary avg_rating
                                      (ReviewTools.total_reviews stats));
                   trust_score := Some trust;
                   themes := Some themes;
                   full_analysis :=
                     Some (fallback_text sentiment
                             (ReviewTools.total_reviews stats)) |} in
              {| result := r;
                 cache_after := SimpleCache.set done_at key r cache;
                 llm_calls := 1 |}
          end
      | Errored e =>
          {| result := failed e product_id; cache_after := cache;
             llm_calls := 1 |}
      | Answered analysis_text =>
          let '(sentiment, pros_, cons_, summary_) :=
            _parse_ai_response analysis_text in
          match _calculate_trust_score stats reviews with
          | Raise e => {| result := failed e product_id; cache_after := cache;
                          llm_calls := 1 |}
          | Return trust =>
              let r :=
                {| success := Some true;
                   product_id := Some product_id;
                   message := None;
                   error := None;
                   statistics := Some stats;
                   sentiment := Some sentiment;
                   pros := Some pros_;
                   cons := Some cons_;
                   summary := Some summary_;
                   trust_score := Some trust;
                   themes := Some themes;
                   full_analysis := Some analysis_text |} in
              {| result := r;
                 cache_after := SimpleCache.set done_at key r cache;
                 llm_calls := 1 |}
          end
      end
  end in
match cached_result with
| Some cached =>
    if truthy_result cached
    then {| result := cached; cache_after := cache; llm_calls := 0 |}
    else fresh
| None => fresh
end.

(** *** Runs and the cache *)

(** What every value written by the agent satisfies. *)
Definition good_entry (r : ReviewResult) : Prop :=
success r = Some true ∧
∀ t, trust_score r = Some t → (0 <= t)%Q ∧ (t <= 1)%Q.

Definition cache_good (c : SimpleCache.store ReviewResult) : Prop :=
∀ k v t, c !! k = Some (v, t) → good_entry v.

Lemma good_entry_truthy r : good_entry r → truthy_result r = true.
Proof.
intros [Hs _]. unfold truthy_result. rewrite Hs.
rewrite bool_decide_eq_true_2 by eauto. done.
Qed.

Lemma trust_score_of_reviews db product_id :
  ReviewTools.product_reviews db product_id ≠ [] →
  ∃ t, _calculate_trust_score
         (ReviewTools.get_review_statistics db product_id)
         (ReviewTools.get_reviews db product_id 100) = Return t.
Proof.
intros Hne. eexists. apply trust_score_returns.
rewrite ReviewTools.total_reviews_length.
destruct (ReviewTools.product_reviews db product_id); [done|]. simpl. lia.
Qed.

Ltac run_cases :=
  unfold analyze_reviews;
  let o := fresh "hit" in
  let c1 := fresh "c1" in
  let Hget := fresh "Hget" in
  destruct (SimpleCache.get review_ttl _ _ _) as [o c1] eqn:Hget;
  try (destruct o as [?cached|]; [destruct (truthy_result _) eqn:?Htruthy|]);
  cbn [result cache_after llm_calls];
  try (destruct (ReviewTools.get_reviews _ _ 100) as [|?r0 ?rs] eqn:?Hrev;
       [|match goal with
         | |- context [match ?l with Answered _ => _ | _ => _ end] =>
             destruct l as [?text| |?msg]
         end;
         try (destruct (_parse_ai_response _) as [[[?sent ?pr] ?cn] ?sm]);
         try (destruct (_calculate_trust_score _ _) as [?trust|?exn] eqn:?Htrust)];
       cbn [result cache_after llm_calls]).

Lemma analyze_reviews_keeps_good db now done_at llm c product_id :
  cache_good c →
  cache_good (cache_after (analyze_reviews db now done_at llm c product_id)).
Proof.
intros Hc.
assert (∀ c1 o, SimpleCache.get review_ttl now (cache_key product_id) c = (o, c1)
                → cache_good c1) as Hsub.
{ intros c1 o Hget k v t Hk. apply (Hc k v t).
  eapply lookup_weaken; [exact Hk|].
  pose proof (SimpleCache.get_store_sub review_ttl now (cache_key product_id) c) as H.
  by rewrite Hget in H. }
run_cases; try (by eapply Hsub);
  (intros k v t; unfold SimpleCache.set; rewrite lookup_insert;
   case_decide; [|by eapply Hsub];
   intros [= <- <-]; split; [done|]; cbn [trust_score];
   intros ? [= <-]; by eapply trust_score_range).
Qed.


Lemma analyze_reviews_failure_not_cached db now done_at llm c product_id :
  success (result (analyze_reviews db now done_at llm c product_id)) ≠ Some true →
  cache_after (analyze_reviews db now done_at llm c product_id) ⊆ c.
Proof.
assert (∀ c1 o, SimpleCache.get review_ttl now (cache_key product_id) c = (o, c1)
                → c1 ⊆ c) as Hsub.
{ intros c1 o Hget.
  pose proof (SimpleCache.get_store_sub review_ttl now (cache_key product_id) c) as H.
  by rewrite Hget in H. }
run_cases; try done; try (intros _; by eapply Hsub).
Qed.

Lemma analyze_reviews_served db now done_at llm c product_id v c1 :
  SimpleCache.get review_ttl now (cache_key product_id) c = (Some v, c1) →
  truthy_result v = true →
  analyze_reviews db now done_at llm c product_id
  = {| result := v; cache_after := c; llm_calls := 0 |}.
Proof.
intros Hget Ht. unfold analyze_reviews. rewrite Hget, Ht.
by apply SimpleCache.get_hit in Hget as [-> _].
Qed.

Lemma analyze_reviews_no_reviews db now done_at llm c product_id :
  ReviewTools.product_reviews db product_id = [] →
  c !! cache_key product_id = None →
  analyze_reviews db now done_at llm c product_id
  = {| result := no_reviews product_id; cache_after := c; llm_calls := 0 |}.
Proof.
intros Hrows Hmiss. unfold analyze_reviews.
rewrite (SimpleCache.get_miss_key _ _ _ _ Hmiss).
by rewrite (proj2 (ReviewTools.get_reviews_nil db product_id) Hrows).
Qed.

Lemma analyze_reviews_caches_analysis db now done_at llm c product_id :
  ReviewTools.product_reviews db product_id ≠ [] →
  (SimpleCache.get review_ttl now (cache_key product_id) c).1 = None →
  (∀ e, llm ≠ Errored e) →
  let run := analyze_reviews db now done_at llm c product_id in
  success (result run) = Some true ∧
  llm_calls run = 1%nat ∧
  cache_after run !! cache_key product_id = Some (result run, done_at).
Proof.
intros Hrows Hmiss Hllm.
destruct (trust_score_of_reviews db product_id Hrows) as [t Ht].
assert (ReviewTools.get_reviews db product_id 100 ≠ []) as Hrev
  by (by rewrite ReviewTools.get_reviews_nil).
cbv zeta. run_cases; try (rewrite Hget in Hmiss; discriminate Hmiss);
  try done; try congruence;
  try (by destruct (Hllm msg));
  (split; [done|]; split; [done|];
   unfold SimpleCache.set; by rewrite lookup_insert_eq).
Qed.

Lemma cache_key_inj : Inj (=) (=) cache_key.
Proof.
intros a b H. unfold cache_key in H.
apply (inj (String.append "review_analysis_")) in H.
by apply (inj pretty) in H.
Qed.

Lemma analyze_reviews_other_key db now done_at llm c product_id other :
  c !! cache_key other = None →
  (product_id = other → ReviewTools.product_reviews db other = []) →
  cache_after (analyze_reviews db now done_at llm c product_id)
    !! cache_key other = None.
Proof.
intros Hmiss Hrows.
pose proof (SimpleCache.get_store_sub review_ttl now (cache_key product_id) c) as H.
assert (∀ c1 o, SimpleCache.get review_ttl now (cache_key product_id) c = (o, c1)
                → c1 !! cache_key other = None) as Hsub.
{ intros c1 o Hget. rewrite Hget in H. simpl in H.
  by eapply lookup_weaken_None. }
destruct (decide (product_id = other)) as [->|Hne].
- rewrite analyze_reviews_no_reviews by auto. done.
- assert (cache_key product_id ≠ cache_key other) as Hk
    by (intros ?%cache_key_inj; done).
  run_cases; try (by eapply Hsub);
    (unfold SimpleCache.set; rewrite lookup_insert_ne by done; by eapply Hsub).
Qed.

(** Caches that the agent can have built, starting from the empty cache, by
    runs against databases that satisfy [P]. *)
Inductive reachable (P : Catalog.Db → Prop)
  : SimpleCache.store ReviewResult → Prop :=
| reachable_empty : reachable P ∅
| reachable_run c db now done_at llm product_id :
    reachable P c → P db →
    reachable P (cache_after (analyze_reviews db now done_at llm c product_id)).

Lemma reachable_good P c : reachable P c → cache_good c.
Proof.
induction 1 as [|c db now done_at llm pid _ IH _].
- intros k v t Hk. by rewrite lookup_empty in Hk.
- by apply analyze_reviews_keeps_good.
Qed.

Lemma reachable_no_entry pid c :
  reachable (λ db, ReviewTools.product_reviews db pid = []) c →
  c !! cache_key pid = None.
Proof.
induction 1 as [|c db now done_at llm pid' _ IH Hdb].
- apply lookup_empty.
- apply analyze_reviews_other_key; auto.
Qed.

End Agent.

End ReviewAnalyzerAgent.

(** ** Price tools ([price_tools.py]) *)

Module PriceTools.

(** An entry of a price history: [{"price": ..., "date": ...}]. *)
Record PricePoint : Type := {
  price : Q;
  date : Catalog.timestamp
}.

(** Chart payloads.  [ChartJs] is the structure built by
    [_prepare_chart_data] (labels, the price series, the constant average
    line and the three markers; colours and display options are constants
    and left out); [SimpleChart] is the [{"labels", "data"}] dictionary the
    orchestrator builds. *)
Inductive ChartData : Type :=
| ChartJs (labels : list Z) (prices : list Q) (avg_line : list Q)
    (current lowest highest : Q)
| SimpleChart (labels : list Z) (data : list Q).

(** The dictionary returned by [calculate_price_trend], in both shapes. *)
Record TrendData : Type := {
  trend : string;
  recommendation : string;
  price_change : option Q;
  error : option string;
  current_price : option Q;
  average_price : option Q;
  min_price : option Q;
  max_price : option Q;
  price_change_pct : option Q;
  data_points : option Z;
  chart_data : option ChartData
}.

(** Entries of the last [days] days, newest first. *)
Definition get_price_history (db : Catalog.Db) (now : Catalog.timestamp)
    (product_id : Z) (days : Z) : list PricePoint :=
let cutoff_date := (now - days * 86400)%Z in
(λ h, {| price := Catalog.ph_price h; date := Catalog.recorded_at h |}) <$>
  sorted_desc (λ h, inject_Z (Catalog.recorded_at h))
    (filter (λ h, Catalog.ph_product_id h = product_id
                  ∧ (cutoff_date ≤ Catalog.recorded_at h)%Z)
            (Catalog.price_history db)).

(** [sorted(history, key=lambda x: x['date'])] *)
Definition sorted_by_date (history : list PricePoint) : list PricePoint :=
sort_stable (λ x y, Z.ltb (date x) (date y)) history.

Definition _prepare_chart_data (history : list PricePoint)
    (current_price avg_price min_price max_price : Q) : ChartData :=
let sorted_history := sorted_by_date history in
let labels := (λ h, Catalog.day_label (date h)) <$> sorted_history in
let prices := price <$> sorted_history in
let avg_line := replicate (length labels) avg_price in
ChartJs labels prices avg_line current_price min_price max_price.

Definition no_history : TrendData :=
{| trend := "unknown";
   recommendation := "wait";
   price_change := Some 0%Q;
   error := Some "No price history available";
   current_price := None;
   average_price := None;
   min_price := None;
   max_price := None;
   price_change_pct := None;
   data_points := None;
   chart_data := None |}.

Definition len_Q {A} (l : list A) : Q := inject_Z (Z.of_nat (length l)).

Definition price_trend (prices : list Q) : string :=
if (14 <=? length prices)%nat then
  let recent_avg := (Qsum (take 7 prices) / inject_Z (Z.min 7 (Z.of_nat (length prices))))%Q in
  let older := take 7 (drop 7 prices) in
  let older_avg :=
    (Qsum older / inject_Z (Z.max 1 (Z.min 7 (Z.of_nat (length older)))))%Q in
  if Qltb recent_avg (older_avg * (95 # 100)) then "decreasing"
  else if Qltb (older_avg * (105 # 100)) recent_avg then "increasing"
  else "stable"
else "insufficient_data".

Definition buy_recommendation (current_price min_price avg_price : Q)
    (trend : string) : string :=
if Qle_bool current_price (min_price * (105 # 100)) then "buy_now"
else if String.eqb trend "decreasing" then "wait"
else if Qle_bool avg_price current_price then "wait"
else "good_time".

Definition calculate_price_trend (db : Catalog.Db) (now : Catalog.timestamp)
    (product_id : Z) : py TrendData :=
let history := get_price_history db now product_id 30 in
match price <$> history with
| [] => mret no_history
| p0 :: ps =>
    let prices := p0 :: ps in
    let current_price :=
      match Catalog.get_product db product_id with
      | Some product => Catalog.price product
      | None => 0%Q
      end in
    let avg_price := (Qsum prices / len_Q prices)%Q in
    let min_price := Qmin_list p0 ps in
    let max_price := Qmax_list p0 ps in
    let trend := price_trend prices in
    change ← truediv (current_price - max_price) max_price;
    let price_change_pct := (change * 100)%Q in
    let recommendation :=
      buy_recommendation current_price min_price avg_price trend in
    let chart :=
      _prepare_chart_data history current_price avg_price min_price max_price in
    mret {| trend := trend;
            recommendation := recommendation;
            price_change := None;
            error := None;
            current_price := Some current_price;
            average_price := Some (round2 avg_price);
            min_price := Some min_price;
            max_price := Some max_price;
            price_change_pct := Some (round2 price_change_pct);
            data_points := Some (Z.of_nat (length history));
            chart_data := Some chart |}
end.

(** *** The decision rule, where the analysis returns *)

Lemma buy_recommendation_rule current min_p avg trend :
  let near_low := (current <= min_p * (105 # 100))%Q in
  let rec := buy_recommendation current min_p avg trend in
  (rec = "buy_now" ↔ near_low) ∧
  (¬ near_low → (rec = "wait" ↔ trend = "decreasing" ∨ (avg <= current)%Q)) ∧
  (¬ near_low → ¬ (trend = "decreasing" ∨ (avg <= current)%Q) → rec = "good_time").
Proof.
intros near_low rec. subst near_low rec. unfold buy_recommendation.
destruct (Qle_bool current (min_p * (105 # 100))) eqn:E1.
- apply Qle_bool_iff in E1. split_and!; [done|done..].
- assert (¬ (current <= min_p * (105 # 100))%Q) as Hn
    by (rewrite <- Qle_bool_iff; congruence).
  destruct (String.eqb_spec trend "decreasing") as [->|Ht].
  + split_and!; [split; [done|by intros ?]| intros _; split; auto | tauto].
  + destruct (Qle_bool avg current) eqn:E2.
    * apply Qle_bool_iff in E2.
      split_and!; [split; [done|by intros ?]| intros _; split; auto | tauto].
    * assert (¬ (avg <= current)%Q) as Hn2
        by (rewrite <- Qle_bool_iff; congruence).
      split_and!; [split; [done|by intros ?]| intros _; split; [done|tauto] | done].
Qed.

Lemma calculate_price_trend_returns db now product_id p0 ps :
  price <$> get_price_history db now product_id 30 = p0 :: ps →
  ¬ (Qmax_list p0 ps == 0)%Q →
  ∃ td, calculate_price_trend db now product_id = Return td ∧
    let current := match Catalog.get_product db product_id with
                   | Some product => Catalog.price product
                   | None => 0%Q
                   end in
    current_price td = Some current ∧
    min_price td = Some (Qmin_list p0 ps) ∧
    trend td = price_trend (p0 :: ps) ∧
    recommendation td
    = buy_recommendation current (Qmin_list p0 ps)
        (Qsum (p0 :: ps) / len_Q (p0 :: ps)) (price_trend (p0 :: ps)).
Proof.
intros Hh Hmax. unfold calculate_price_trend. rewrite Hh.
unfold truediv.
destruct (Qeq_bool (Qmax_list p0 ps) 0) eqn:E.
- by apply Qeq_bool_iff in E.
- eexists. split; [reflexivity|]. done.
Qed.

Lemma calculate_price_trend_empty db now product_id :
  get_price_history db now product_id 30 = [] →
  calculate_price_trend db now product_id = Return no_history.
Proof. unfold calculate_price_trend. by intros ->. Qed.

End PriceTools.

(** ** Price tracker ([price_tracker_agent.py]) *)

Module PriceTrackerAgent.

(** The result dictionary of [analyze_price].  The last eight fields are the
    keys that [_enrich_products] of the orchestrator adds to it; a key set
    to [None] is [Some None]. *)
Record PriceAnalysis : Type := {
  success : option bool;
  error : option string;
  product_id : option Z;
  product_name : option string;
  price_data : option PriceTools.TrendData;
  history : option (list PriceTools.PricePoint);
  ai_recommendation : option string;
  recommendation : option string;
  confidence : option string;
  chart_data : option PriceTools.ChartData;
  data_points : option Z;
  current_price : option (option Q);
  average_price : option (option Q);
  min_price : option (option Q);
  max_price : option (option Q);
  trend : option string;
  price_change_pct : option (option Q)
}.

(** The empty dictionary. *)
Definition empty_analysis : PriceAnalysis :=
{| success := None; error := None; product_id := None; product_name := None;
   price_data := None; history := None; ai_recommendation := None;
   recommendation := None; confidence := None; chart_data := None;
   data_points := None; current_price := None; average_price := None;
   min_price := None; max_price := None; trend := None;
   price_change_pct := None |}.

(** [{"success": False, "error": msg}] *)
Definition failed (msg : string) : PriceAnalysis :=
{| success := Some false; error := Some msg; product_id := None;
   product_name := None; price_data := None; history := None;
   ai_recommendation := None; recommendation := None; confidence := None;
   chart_data := None; data_points := None; current_price := None;
   average_price := None; min_price := None; max_price := None;
   trend := None; price_change_pct := None |}.

Definition _calculate_confidence (trend_data : PriceTools.TrendData) : string :=
let data_points := default 0%Z (PriceTools.data_points trend_data) in
let current := default 0%Q (PriceTools.current_price trend_data) in
let min_price := default 1%Q (PriceTools.min_price trend_data) in
if (20 <=? data_points)%Z && Qle_bool current (min_price * (105 # 100))
then "high"
else if (10 <=? data_points)%Z then "medium"
else "low".

Section Agent.

(** The narrative: the answer of the language model or, when the call
    fails, the rule-based sentence; always a string. *)
Context (_generate_ai_recommendation :
           string → PriceTools.TrendData → nat → string).

Definition analyze_price (db : Catalog.Db) (now : Catalog.timestamp)
    (product_id : Z) : PriceAnalysis :=
match Catalog.get_product db product_id with
| None => failed ("Product " +:+ pretty product_id +:+ " not found")
| Some product =>
    match PriceTools.calculate_price_trend db now product_id with
    | Raise e => failed e
    | Return trend_data =>
        let history := PriceTools.get_price_history db now product_id 30 in
        let ai :=
          _generate_ai_recommendation (Catalog.name product) trend_data
            (length history) in
        {| success := Some true;
           error := None;
           product_id := Some product_id;
           product_name := Some (Catalog.name product);
           price_data := Some trend_data;
           history := Some (take 10 history);
           ai_recommendation := Some ai;
           recommendation := Some (PriceTools.recommendation trend_data);
           confidence := Some (_calculate_confidence trend_data);
           chart_data := None; data_points := None; current_price := None;
           average_price := None; min_price := None; max_price := None;
           trend := None; price_change_pct := None |}
    end
end.

End Agent.

End PriceTrackerAgent.

(** ** Payment tools ([buyplan_tools.py]) *)

Module BuyPlanTools.

(** The two shapes of a result dictionary: [{"success": True, ...}] and
    [{"success": False, "error": msg}]. *)
Inductive outcome (A : Type) : Type :=
| Success (a : A)
| Failure (error : string).
Arguments Success {A} a.
Arguments Failure {A} error.

Record Offer : Type := {
  offer_id : Z;
  bank_name : string;
  offer_type : option string;
  discount_percent : option Q;
  discount_amount : option Q;
  cashback_amount : option Q;
  emi_months : option Z;
  emi_amount : option Q;
  min_purchase : option Q;
  max_discount : option Q;
  valid_from : option Catalog.timestamp;
  valid_till : option Catalog.timestamp;
  terms : option string
}.

(** [float(x) if x else None] *)
Definition float_if (o : option Q) : option Q :=
if truthy_opt o then o else None.

(** The loop body of [get_card_offers]. *)
Definition format_offer (offer : Catalog.CardOffer) : Offer :=
{| offer_id := Catalog.offer_id offer;
   bank_name := Catalog.bank_name offer;
   offer_type := Catalog.offer_type offer;
   discount_percent := float_if (Catalog.discount_percentage offer);
   discount_amount := float_if (Catalog.discount_amount offer);
   cashback_amount := float_if (Catalog.cashback_amount offer);
   emi_months :=
     match Catalog.emi_tenure offer with
     | Some t => if negb (String.eqb t "") && isdigit t
                 then Some (int_of_digits 0 t) else None
     | None => None
     end;
   emi_amount := None;
   min_purchase := float_if (Catalog.min_transaction_amount offer);
   max_discount := None;
   valid_from := Catalog.valid_from offer;
   valid_till := Catalog.valid_till offer;
   terms := Catalog.offer_description offer |}.

Definition get_card_offers (db : Catalog.Db) (product_id : Z) : list Offer :=
match Catalog.get_product db product_id with
| None => []
| Some _ =>
    format_offer <$>
      filter (λ o, Catalog.offer_product_id o = product_id) (Catalog.card_offers db)
end.

Record EmiPlan : Type := {
  tenure_months : nat;
  emi_per_month : Q;
  total_amount : Q;
  total_interest : Q;
  interest_rate_annual : Q;
  processing_fee : Q;
  plan_type : string;
  total_payable : option Q
}.

(** [interest_rates.get(months, 15.0)] *)
Definition interest_rates (months : nat) : Q :=
match months with
| 3%nat => 12%Q
| 6%nat => 13%Q
| 9%nat => 14%Q
| 12%nat => 15%Q
| 18%nat => 16%Q
| 24%nat => 17%Q
| _ => 15%Q
end.

Definition months_Q (months : nat) : Q := inject_Z (Z.of_nat months).

(** Body of the loop of [calculate_emi_plans]. *)
Definition regular_emi_plan (price : Q) (months : nat) : py EmiPlan :=
let annual_rate := interest_rates months in
let monthly_rate := (annual_rate / 12 / 100)%Q in
emi_amount ←
  (if Qltb 0 monthly_rate
   then truediv (price * monthly_rate * (1 + monthly_rate) ^ Z.of_nat months)
                ((1 + monthly_rate) ^ Z.of_nat months - 1)
   else truediv price (months_Q months));
let total := (emi_amount * months_Q months)%Q in
let interest := (total - price)%Q in
mret {| tenure_months := months;
        emi_per_month := round2 emi_amount;
        total_amount := round2 total;
        total_interest := round2 interest;
        interest_rate_annual := annual_rate;
        processing_fee := 199;
        plan_type := "regular_emi";
        total_payable := None |}.

Definition default_emi_tenures : list nat := [3; 6; 9; 12; 18; 24]%nat.

(** An exception anywhere in the loop makes the function return [[]]. *)
Definition calculate_emi_plans (price : Q) (tenures : list nat) : list EmiPlan :=
match mapM (regular_emi_plan price) tenures with
| Return plans => plans
| Raise _ => []
end.

Definition no_cost_emi_plan (price : Q) (months : nat) : py EmiPlan :=
emi_amount ← truediv price (months_Q months);
let fee := 199%Q in
mret {| tenure_months := months;
        emi_per_month := round2 emi_amount;
        total_amount := round2 price;
        total_interest := 0;
        interest_rate_annual := 0;
        processing_fee := fee;
        plan_type := "no_cost_emi";
        total_payable := Some (round2 (price + fee)) |}.

Definition default_no_cost_tenures : list nat := [3; 6; 9; 12]%nat.

Definition calculate_no_cost_emi (price : Q) (tenures : list nat) : list EmiPlan :=
match mapM (no_cost_emi_plan price) tenures with
| Return plans => plans
| Raise _ => []
end.

(** *** Payment options *)

Record PaymentOption : Type := {
  option_name : string;
  payment_method : string;
  payment_type : string;
  final_price : option Q;
  discount_from_mrp : Q;
  additional_savings : option Q;
  total_savings : Q;
  savings_percent : Q;
  offer_details : option (option string);
  option_cashback_amount : option Q;
  effective_price : option Q;
  cashback_credit_days : option Z;
  option_emi_per_month : option Q;
  option_tenure_months : option Z;
  option_total_amount : option Q;
  option_processing_fee : option Q;
  option_total_interest : option Q
}.

Definition savings_pct (savings product_mrp : Q) : Q :=
if truthy product_mrp then round2 (savings / product_mrp * 100) else 0%Q.

(** Option 1 of [calculate_total_savings]. *)
Definition full_price_option (product_price product_mrp base_discount : Q)
  : PaymentOption :=
{| option_name := "Full Price Payment";
   payment_method := "Any Card/Cash";
   payment_type := "one_time";
   final_price := Some product_price;
   discount_from_mrp := base_discount;
   additional_savings := Some 0%Q;
   total_savings := base_discount;
   savings_percent := savings_pct base_discount product_mrp;
   offer_details := None;
   option_cashback_amount := None;
   effective_price := None;
   cashback_credit_days := None;
   option_emi_per_month := None;
   option_tenure_months := None;
   option_total_amount := None;
   option_processing_fee := None;
   option_total_interest := None |}.

(** The option appended for one card offer, if any. *)
Definition offer_option (product_price product_mrp base_discount : Q)
    (offer : Offer) : option PaymentOption :=
if bool_decide (offer_type offer = Some "instant_discount") then
  let savings :=
    if truthy_opt (discount_amount offer) then default 0%Q (discount_amount offer)
    else if truthy_opt (discount_percent offer) then
      let s := (product_price * (default 0 (discount_percent offer) / 100))%Q in
      if truthy_opt (max_discount offer)
      then (let m := default 0%Q (max_discount offer) in
            if Qltb m s then m else s)
      else s
    else 0%Q in
  Some {| option_name := bank_name offer +:+ " Instant Discount";
          payment_method := bank_name offer +:+ " Card";
          payment_type := "one_time";
          final_price := Some (round2 (product_price - savings));
          discount_from_mrp := base_discount;
          additional_savings := Some (round2 savings);
          total_savings := round2 (base_discount + savings);
          savings_percent := savings_pct (base_discount + savings) product_mrp;
          offer_details := Some (terms offer);
          option_cashback_amount := None;
          effective_price := None;
          cashback_credit_days := None;
          option_emi_per_month := None;
          option_tenure_months := None;
          option_total_amount := None;
          option_processing_fee := None;
          option_total_interest := None |}
else if bool_decide (offer_type offer = Some "cashback") then
  let cashback :=
    if truthy_opt (cashback_amount offer) then default 0%Q (cashback_amount offer)
    else 0%Q in
  Some {| option_name := bank_name offer +:+ " Cashback";
          payment_method := bank_name offer +:+ " Card";
          payment_type := "cashback";
          final_price := Some product_price;
          discount_from_mrp := base_discount;
          additional_savings := Some (round2 cashback);
          total_savings := round2 (base_discount + cashback);
          savings_percent := savings_pct (base_discount + cashback) product_mrp;
          offer_details := Some (terms offer);
          option_cashback_amount := Some (round2 cashback);
          effective_price := Some (round2 (product_price - cashback));
          cashback_credit_days := Some 90%Z;
          option_emi_per_month := None;
          option_tenure_months := None;
          option_total_amount := None;
          option_processing_fee := None;
          option_total_interest := None |}
else if bool_decide (offer_type offer = Some "no_cost_emi") then
  match emi_months offer, emi_amount offer with
  | Some months, Some amount =>
      if negb (Z.eqb months 0) && truthy amount then
        Some {| option_name := bank_name offer +:+ " No Cost EMI";
                payment_method := bank_name offer +:+ " Card";
                payment_type := "emi";
                final_price := None;
                discount_from_mrp := base_discount;
                additional_savings := None;
                total_savings := base_discount;
                savings_percent := savings_pct base_discount product_mrp;
                offer_details := Some (terms offer);
                option_cashback_amount := None;
                effective_price := None;
                cashback_credit_days := None;
                option_emi_per_month := Some (round2 amount);
                option_tenure_months := Some months;
                option_total_amount := Some (round2 (amount * inject_Z months));
                option_processing_fee := Some 199%Q;
                option_total_interest := Some 0%Q |}
      else None
  | _, _ => None
  end
else None.

Definition calculate_total_savings (product_price product_mrp : Q)
    (offers : list Offer) : list PaymentOption :=
let base_discount :=
  if truthy product_mrp then (product_mrp - product_price)%Q else 0%Q in
sorted_desc total_savings
  (full_price_option product_price product_mrp base_discount
   :: omap (offer_option product_price product_mrp base_discount) offers).

Record Recommendations : Type := {
  best_instant_savings : option PaymentOption;
  best_cashback : option PaymentOption;
  best_emi : option PaymentOption
}.

(** Body of the selection loop of [compare_payment_options]. *)
Definition select_best (best : Recommendations) (opt : PaymentOption)
  : py Recommendations :=
if String.eqb (payment_type opt) "one_time"
   && contains "Instant Discount" (option_name opt) then
  match best_instant_savings best with
  | Some b =>
      if Qltb (total_savings b) (total_savings opt)
      then mret {| best_instant_savings := Some opt;
                   best_cashback := best_cashback best;
                   best_emi := best_emi best |}
      else mret best
  | None => mret {| best_instant_savings := Some opt;
                    best_cashback := best_cashback best;
                    best_emi := best_emi best |}
  end
else if String.eqb (payment_type opt) "cashback" then
  match best_cashback best with
  | Some b =>
      if Qltb (total_savings b) (total_savings opt)
      then mret {| best_instant_savings := best_instant_savings best;
                   best_cashback := Some opt;
                   best_emi := best_emi best |}
      else mret best
  | None => mret {| best_instant_savings := best_instant_savings best;
                    best_cashback := Some opt;
                    best_emi := best_emi best |}
  end
else if String.eqb (payment_type opt) "emi" then
  match best_emi best with
  | Some b =>
      e ← getitem (option_emi_per_month opt) "emi_per_month";
      eb ← getitem (option_emi_per_month b) "emi_per_month";
      if Qltb e eb
      then mret {| best_instant_savings := best_instant_savings best;
                   best_cashback := best_cashback best;
                   best_emi := Some opt |}
      else mret best
  | None => mret {| best_instant_savings := best_instant_savings best;
                    best_cashback := best_cashback best;
                    best_emi := Some opt |}
  end
else mret best.

Fixpoint select_all (best : Recommendations) (opts : list PaymentOption)
  : py Recommendations :=
match opts with
| [] => mret best
| opt :: opts' => best' ← select_best best opt; select_all best' opts'
end.

Record Comparison : Type := {
  product_id : Z;
  product_name : string;
  product_price : Q;
  product_mrp : Q;
  payment_options : list PaymentOption;
  regular_emi_plans : list EmiPlan;
  no_cost_emi_plans : list EmiPlan;
  recommendations : Recommendations
}.

(** [float(product.mrp) if product.mrp else float(product.price)] *)
Definition mrp_or_price (product : Catalog.Product) : Q :=
if truthy_opt (Catalog.mrp product)
then default 0%Q (Catalog.mrp product) else Catalog.price product.

Definition compare_payment_options (product_id : Z) (db : Catalog.Db)
  : outcome Comparison :=
match Catalog.get_product db product_id with
| None => Failure "Product not found"
| Some product =>
    let offers := get_card_offers db product_id in
    let regular_emi := calculate_emi_plans (Catalog.price product) default_emi_tenures in
    let no_cost_emi :=
      calculate_no_cost_emi (Catalog.price product) default_no_cost_tenures in
    let options :=
      calculate_total_savings (Catalog.price product) (mrp_or_price product) offers in
    match select_all {| best_instant_savings := None;
                        best_cashback := None;
                        best_emi := None |} options with
    | Return best =>
        Success {| product_id := product_id;
                   product_name := Catalog.name product;
                   product_price := Catalog.price product;
                   product_mrp := mrp_or_price product;
                   payment_options := options;
                   regular_emi_plans := regular_emi;
                   no_cost_emi_plans := no_cost_emi;
                   recommendations := best |}
    | Raise e => Failure e
    end
end.

(** [get_emi_eligibility(product_price)["eligible_for_emi"]] *)
Definition eligible_for_emi (product_price : Q) : bool :=
Qle_bool 5000 product_price.

(** *** Facts about the EMI schedules *)






(** *** Facts about the selection of the best options *)

Lemma offer_option_not_emi price mrp base (offer : Catalog.CardOffer) opt :
  offer_option price mrp base (format_offer offer) = Some opt →
  payment_type opt ≠ "emi".
Proof.
unfold offer_option.
repeat case_bool_decide; cbn [emi_amount format_offer];
  try destruct (emi_months (format_offer offer)); intros [= <-]; done.
Qed.

Lemma card_offer_options_not_emi db product_id price mrp base :
  Forall (λ opt, payment_type opt ≠ "emi")
    (omap (offer_option price mrp base) (get_card_offers db product_id)).
Proof.
apply Forall_forall. intros opt Hin.
apply list_elem_of_omap in Hin as (o & Ho & Hopt).
unfold get_card_offers in Ho.
destruct (Catalog.get_product db product_id); [|by apply elem_of_nil in Ho].
apply list_elem_of_fmap in Ho as (row & -> & _).
by eapply offer_option_not_emi.
Qed.

Lemma select_all_no_emi opts : ∀ best,
  Forall (λ opt, payment_type opt ≠ "emi") opts →
  best_emi best = None →
  ∃ best', select_all best opts = Return best' ∧ best_emi best' = None.
Proof.
induction opts as [|opt opts IH]; intros best Hall Hb; simpl.
- by exists best.
- apply Forall_cons in Hall as [Hopt Hall].
  assert (∃ b, select_best best opt = Return b ∧ best_emi b = None)
    as (b & -> & Hb').
  { unfold select_best.
    destruct (_ && _).
    { destruct (best_instant_savings best) as [b0|];
        [destruct (Qltb _ _)|]; eexists; split; done. }
    destruct (String.eqb (payment_type opt) "cashback").
    { destruct (best_cashback best) as [b0|];
        [destruct (Qltb _ _)|]; eexists; split; done. }
    destruct (String.eqb_spec (payment_type opt) "emi"); [done|].
    by exists best. }
  by apply IH.
Qed.

End BuyPlanTools.

(** ** Buy-plan optimizer ([buyplan_optimizer_agent.py]) *)

Module BuyPlanOptimizerAgent.

Record PurchasePlan : Type := {
  product_id : Z;
  product_name : string;
  product_price : Q;
  product_mrp : Q;
  emi_eligible : bool;
  payment_options : list BuyPlanTools.PaymentOption;
  regular_emi_plans : list BuyPlanTools.EmiPlan;
  no_cost_emi_plans : list BuyPlanTools.EmiPlan;
  best_instant_savings : option BuyPlanTools.PaymentOption;
  best_cashback : option BuyPlanTools.PaymentOption;
  best_emi : option BuyPlanTools.PaymentOption;
  ai_recommendation : string;
  summary : string
}.

Section Agent.

(** The narrative of the language model and the rendering of the summary
    text; both always produce a string. *)
Context (_generate_ai_recommendation :
           Catalog.Product → BuyPlanTools.Comparison → option string → string).
Context (_generate_summary : BuyPlanTools.Comparison → string → string).

Definition create_purchase_plan (db : Catalog.Db) (product_id : Z)
    (user_preference : option string)
  : BuyPlanTools.outcome PurchasePlan :=
match BuyPlanTools.compare_payment_options product_id db with
| BuyPlanTools.Failure e => BuyPlanTools.Failure e
| BuyPlanTools.Success comparison =>
    match Catalog.get_product db product_id with
    | None => BuyPlanTools.Failure "Product not found"
    | Some product =>
        let ai := _generate_ai_recommendation product comparison user_preference in
        let best := BuyPlanTools.recommendations comparison in
        BuyPlanTools.Success
          {| product_id := product_id;
             product_name := Catalog.name product;
             product_price := Catalog.price product;
             product_mrp := BuyPlanTools.mrp_or_price product;
             emi_eligible := BuyPlanTools.eligible_for_emi (Catalog.price product);
             payment_options := BuyPlanTools.payment_options comparison;
             regular_emi_plans := BuyPlanTools.regular_emi_plans comparison;
             no_cost_emi_plans := BuyPlanTools.no_cost_emi_plans comparison;
             best_instant_savings := BuyPlanTools.best_instant_savings best;
             best_cashback := BuyPlanTools.best_cashback best;
             best_emi := BuyPlanTools.best_emi best;
             ai_recommendation := ai;
             summary := _generate_summary comparison ai |}
    end
end.

(** Whatever the offers of the product, the plan names no EMI option: the
    offers read by [get_card_offers] never carry an [emi_amount]. *)
Lemma create_purchase_plan_best_emi db product_id user_preference plan :
  create_purchase_plan db product_id user_preference = BuyPlanTools.Success plan →
  best_emi plan = None.
Proof.
unfold create_purchase_plan, BuyPlanTools.compare_payment_options.
destruct (Catalog.get_product db product_id) as [product|] eqn:Hp; [|done].
destruct (BuyPlanTools.select_all_no_emi
            (BuyPlanTools.calculate_total_savings (Catalog.price product)
               (BuyPlanTools.mrp_or_price product)
               (BuyPlanTools.get_card_offers db product_id))
            {| BuyPlanTools.best_instant_savings := None;
               BuyPlanTools.best_cashback := None;
               BuyPlanTools.best_emi := None |}) as (best & -> & Hbest);
  [|done|by intros [= <-]].
unfold BuyPlanTools.calculate_total_savings.
rewrite sorted_desc_perm. constructor; [done|].
apply BuyPlanTools.card_offer_options_not_emi.
Qed.

End Agent.

End BuyPlanOptimizerAgent.

(** ** Orchestrator ([orchestrator_agent.py]) *)

Module Orchestrator.

(** A product dictionary as the search agent returns it (the keys that the
    orchestrator reads; the others are carried along unchanged). *)
Record Product : Type := {
  id : Z;
  name : string;
  brand : option string;
  price : Q;
  mrp : Q;
  discount_percent : Q;
  rating : Q;
  review_count : option Z;
  in_stock : option bool;
  search_score : Q
}.

(** The result of [search_products]; a failed search has no products. *)
Record SearchResult : Type := {
  search_success : bool;
  search_products : list Product
}.

(** Outcome of awaiting an agent call under [asyncio.wait_for]: a value, the
    timeout of the wrapper, or another exception. *)
Inductive awaited (A : Type) : Type :=
| Value (a : A)
| Timeout
| Exception (msg : string).
Arguments Value {A} a.
Arguments Timeout {A}.
Arguments Exception {A} msg.


(** [{"success": False, "error": msg}] as a review result. *)
Definition review_failed (msg : string) : ReviewAnalyzerAgent.ReviewResult :=
{| ReviewAnalyzerAgent.success := Some false;
   ReviewAnalyzerAgent.product_id := None;
   ReviewAnalyzerAgent.message := None;
   ReviewAnalyzerAgent.error := Some msg;
   ReviewAnalyzerAgent.statistics := None;
   ReviewAnalyzerAgent.sentiment := None;
   ReviewAnalyzerAgent.pros := None;
   ReviewAnalyzerAgent.cons := None;
   ReviewAnalyzerAgent.summary := None;
   ReviewAnalyzerAgent.trust_score := None;
   ReviewAnalyzerAgent.themes := None;
   ReviewAnalyzerAgent.full_analysis := None |}.

(** The value stored for one product by the dictionary comprehension of the
    two fan-out wrappers. *)
Definition settle {A} (failed : string → A) (r : awaited A) : A :=
match r with
| Value a => a
| Timeout => failed "Timeout"
| Exception msg => failed msg
end.

(** [{pid: ... for pid, result in zip(product_ids, results)}]: a later entry
    for the same id replaces an earlier one. *)
Definition by_product {A} (product_ids : list Z) (results : list A) : gmap Z A :=
foldl (λ m pr, <[pr.1 := pr.2]> m) ∅ (zip product_ids results).

Definition _analyze_all_reviews (product_ids : list Z)
    (results : list (awaited ReviewAnalyzerAgent.ReviewResult))
  : gmap Z ReviewAnalyzerAgent.ReviewResult :=
by_product product_ids (settle review_failed <$> results).

Definition _track_all_prices (product_ids : list Z)
    (results : list (awaited PriceTrackerAgent.PriceAnalysis))
  : gmap Z PriceTrackerAgent.PriceAnalysis :=
by_product product_ids (settle PriceTrackerAgent.failed <$> results).

Definition _create_buy_plan
    (result : awaited (BuyPlanTools.outcome BuyPlanOptimizerAgent.PurchasePlan))
  : BuyPlanTools.outcome BuyPlanOptimizerAgent.PurchasePlan :=
match result with
| Value plan => plan
| Timeout => BuyPlanTools.Failure "Buy plan timeout"
| Exception msg => BuyPlanTools.Failure msg
end.

(** *** Comparison results *)

Record ComparedProduct : Type := {
  cp_id : Z;
  cp_name : string;
  cp_price : Q;
  cp_rating : Q
}.

Record Winner : Type := {
  winner_product : string;
  winner_value : string;
  winner_reason : string
}.

Record Winners : Type := {
  best_price : option Winner;
  best_value : option Winner;
  best_rating : option Winner;
  most_popular : option Winner;
  best_overall : option Winner
}.

Section Orchestration.

(** Payloads that are passed through unread, and the text renderings. *)
Context {Differences TableData : Type}.
Context (generate_frontend_table_data : list ComparedProduct → TableData).
Context (percent_text : Q → string).

Record ComparisonResult : Type := {
  comparison_success : option bool;
  comparison_error : option string;
  comparison_products : option (list ComparedProduct);
  winners : option Winners;
  differences : option Differences;
  ai_analysis : option string;
  frontend_table : option (TableData * string)
}.

Definition comparison_failed (msg : string) : ComparisonResult :=
{| comparison_success := Some false; comparison_error := Some msg;
   comparison_products := None; winners := None; differences := None;
   ai_analysis := None; frontend_table := None |}.

Definition _compare_products (product_ids : list Z)
    (result : awaited ComparisonResult) : ComparisonResult :=
if (length product_ids <? 2)%nat
then comparison_failed "Need at least 2 products to compare"
else match result with
     | Timeout => comparison_failed "Comparison timeout"
     | Exception msg => comparison_failed msg
     | Value r =>
         match comparison_success r, comparison_products r with
         | Some true, Some (p :: ps) =>
             {| comparison_success := comparison_success r;
                comparison_error := comparison_error r;
                comparison_products := comparison_products r;
                winners := winners r;
                differences := differences r;
                ai_analysis := ai_analysis r;
                frontend_table :=
                  Some (generate_frontend_table_data (p :: ps),
                        default "" (ai_analysis r)) |}
         | _, _ => r
         end
     end.

(** *** Enrichment *)

(** A product with the two analyses attached by [_enrich_products]. *)
Record Enriched : Type := {
  product : Product;
  review_analysis : ReviewAnalyzerAgent.ReviewResult;
  price_analysis : PriceTrackerAgent.PriceAnalysis
}.

(** The random generator: the stream of values that [random.uniform(-0.05,
    0.05)] returns, and the number of values drawn so far. *)
Definition draws : Type := nat → Q.

(** The 30 synthetic points for a product without price data, oldest day
    first: day [i] before [now] gets the [k]-th next draw. *)
Definition mock_chart (rng : draws) (drawn : nat) (now : Catalog.timestamp)
    (base_price : Q) : PriceTools.ChartData :=
let days := rev (seq 1 30) in
PriceTools.SimpleChart
  ((λ i, Catalog.day_label (now - Z.of_nat i * 86400)) <$> days)
  (imap (λ k _, round2 (base_price * (1 + rng (drawn + k)%nat))) days).

Definition set_chart (chart : PriceTools.ChartData) (points : Z)
    (p : PriceTrackerAgent.PriceAnalysis) : PriceTrackerAgent.PriceAnalysis :=
{| PriceTrackerAgent.success := PriceTrackerAgent.success p;
   PriceTrackerAgent.error := PriceTrackerAgent.error p;
   PriceTrackerAgent.product_id := PriceTrackerAgent.product_id p;
   PriceTrackerAgent.product_name := PriceTrackerAgent.product_name p;
   PriceTrackerAgent.price_data := PriceTrackerAgent.price_data p;
   PriceTrackerAgent.history := PriceTrackerAgent.history p;
   PriceTrackerAgent.ai_recommendation := PriceTrackerAgent.ai_recommendation p;
   PriceTrackerAgent.recommendation := PriceTrackerAgent.recommendation p;
   PriceTrackerAgent.confidence := PriceTrackerAgent.confidence p;
   PriceTrackerAgent.chart_data := Some chart;
   PriceTrackerAgent.data_points := Some points;
   PriceTrackerAgent.current_price := PriceTrackerAgent.current_price p;
   PriceTrackerAgent.average_price := PriceTrackerAgent.average_price p;
   PriceTrackerAgent.min_price := PriceTrackerAgent.min_price p;
   PriceTrackerAgent.max_price := PriceTrackerAgent.max_price p;
   PriceTrackerAgent.trend := PriceTrackerAgent.trend p;
   PriceTrackerAgent.price_change_pct := PriceTrackerAgent.price_change_pct p |}.

(** The assignment of [chart_data] alone (the branch that reuses the chart
    of the price tracker leaves [data_points] as it is). *)
Definition set_chart_only (chart : PriceTools.ChartData)
    (p : PriceTrackerAgent.PriceAnalysis) : PriceTrackerAgent.PriceAnalysis :=
{| PriceTrackerAgent.success := PriceTrackerAgent.success p;
   PriceTrackerAgent.error := PriceTrackerAgent.error p;
   PriceTrackerAgent.product_id := PriceTrackerAgent.product_id p;
   PriceTrackerAgent.product_name := PriceTrackerAgent.product_name p;
   PriceTrackerAgent.price_data := PriceTrackerAgent.price_data p;
   PriceTrackerAgent.history := PriceTrackerAgent.history p;
   PriceTrackerAgent.ai_recommendation := PriceTrackerAgent.ai_recommendation p;
   PriceTrackerAgent.recommendation := PriceTrackerAgent.recommendation p;
   PriceTrackerAgent.confidence := PriceTrackerAgent.confidence p;
   PriceTrackerAgent.chart_data := Some chart;
   PriceTrackerAgent.data_points := PriceTrackerAgent.data_points p;
   PriceTrackerAgent.current_price := PriceTrackerAgent.current_price p;
   PriceTrackerAgent.average_price := PriceTrackerAgent.average_price p;
   PriceTrackerAgent.min_price := PriceTrackerAgent.min_price p;
   PriceTrackerAgent.max_price := PriceTrackerAgent.max_price p;
   PriceTrackerAgent.trend := PriceTrackerAgent.trend p;
   PriceTrackerAgent.price_change_pct := PriceTrackerAgent.price_change_pct p |}.

(** The six keys copied from the trend dictionary. *)
Definition copy_trend (trend : PriceTools.TrendData)
    (p : PriceTrackerAgent.PriceAnalysis) : PriceTrackerAgent.PriceAnalysis :=
{| PriceTrackerAgent.success := PriceTrackerAgent.success p;
   PriceTrackerAgent.error := PriceTrackerAgent.error p;
   PriceTrackerAgent.product_id := PriceTrackerAgent.product_id p;
   PriceTrackerAgent.product_name := PriceTrackerAgent.product_name p;
   PriceTrackerAgent.price_data := PriceTrackerAgent.price_data p;
   PriceTrackerAgent.history := PriceTrackerAgent.history p;
   PriceTrackerAgent.ai_recommendation := PriceTrackerAgent.ai_recommendation p;
   PriceTrackerAgent.recommendation := PriceTrackerAgent.recommendation p;
   PriceTrackerAgent.confidence := PriceTrackerAgent.confidence p;
   PriceTrackerAgent.chart_data := PriceTrackerAgent.chart_data p;
   PriceTrackerAgent.data_points := PriceTrackerAgent.data_points p;
   PriceTrackerAgent.current_price := Some (PriceTools.current_price trend);
   PriceTrackerAgent.average_price := Some (PriceTools.average_price trend);
   PriceTrackerAgent.min_price := Some (PriceTools.min_price trend);
   PriceTrackerAgent.max_price := Some (PriceTools.max_price trend);
   PriceTrackerAgent.trend := Some (PriceTools.trend trend);
   PriceTrackerAgent.price_change_pct :=
     Some (PriceTools.price_change_pct trend) |}.


(** Body of the loop of [_enrich_products]; the second component is the
    number of random values drawn so far. *)
Definition enrich_product
    (review_results : gmap Z ReviewAnalyzerAgent.ReviewResult)
    (price_results : gmap Z PriceTrackerAgent.PriceAnalysis)
    (rng : draws) (now : Catalog.timestamp)
    (drawn : nat) (p : Product) : Enriched * nat :=
let review :=
  default ReviewAnalyzerAgent.empty_result (review_results !! id p) in
let price_data :=
  default PriceTrackerAgent.empty_analysis (price_results !! id p) in
let existing_chart_data :=
  PriceTrackerAgent.price_data price_data ≫= PriceTools.chart_data in
let '(price_data, drawn') :=
  match PriceTrackerAgent.history price_data with
  | Some (h :: hs) =>
      let history := h :: hs in
      (set_chart
         (PriceTools.SimpleChart
            ((λ h, Catalog.day_label (PriceTools.date h)) <$> history)
            (PriceTools.price <$> history))
         (Z.of_nat (length history)) price_data, drawn)
  | _ =>
      match existing_chart_data with
      | Some chart => (set_chart_only chart price_data, drawn)
      | None =>
          if Qltb 0 (price p)
          then (set_chart (mock_chart rng drawn now (price p)) 30 price_data,
                (drawn + 30)%nat)
          else (price_data, drawn)
      end
  end in
let price_data :=
  match PriceTrackerAgent.price_data price_data with
  | Some trend => copy_trend trend price_data
  | None => price_data
  end in
({| product := p; review_analysis := review; price_analysis := price_data |},
 drawn').

Fixpoint enrich_from
    (review_results : gmap Z ReviewAnalyzerAgent.ReviewResult)
    (price_results : gmap Z PriceTrackerAgent.PriceAnalysis)
    (rng : draws) (now : Catalog.timestamp)
    (drawn : nat) (products : list Product) : list Enriched :=
match products with
| [] => []
| p :: rest =>
    let '(e, drawn') :=
      enrich_product review_results price_results rng now drawn p in
    e :: enrich_from review_results price_results rng now drawn' rest
end.

(** [_enrich_products]; the retrieved products have distinct ids, so each
    dictionary of [price_results] is updated once. *)
Definition _enrich_products (products : list Product)
    (review_results : gmap Z ReviewAnalyzerAgent.ReviewResult)
    (price_results : gmap Z PriceTrackerAgent.PriceAnalysis)
    (rng : draws) (now : Catalog.timestamp) : list Enriched :=
enrich_from review_results price_results rng now 0 products.

(** *** Response assembly *)

Definition _get_rating_badge (rating : Q) : string :=
if Qle_bool (45 # 10) rating then "⭐ Excellent"
else if Qle_bool 4 rating then "👍 Very Good"
else if Qle_bool (35 # 10) rating then "✅ Good"
else if Qle_bool 3 rating then "⚠️ Average"
else "❌ Below Average".

Definition _get_sentiment_emoji (sentiment : string) : string :=
let sentiment_lower := lower sentiment in
if contains "positive" sentiment_lower then "😊 Positive"
else if contains "negative" sentiment_lower then "😞 Negative"
else "😐 Neutral".

Definition _get_price_badge (recommendation : string) : string :=
let rec_lower := lower recommendation in
if contains "buy" rec_lower || contains "now" rec_lower then "🟢 Buy Now"
else if contains "good" rec_lower then "🟡 Good Deal"
else "🔴 Wait".

Record Pricing : Type := {
  pricing_current_price : Q;
  pricing_mrp : Q;
  pricing_discount_percent : Q;
  you_save : Q;
  pricing_in_stock : option bool
}.

Record Ratings : Type := {
  average_rating : Q;
  total_reviews : option Z;
  rating_badge : string
}.

Record ReviewBlock : Type := {
  review_available : bool;
  block_sentiment : string;
  sentiment_emoji : string;
  block_trust_score : Q;
  trust_score_percent : string;
  block_pros : list string;
  block_cons : list string;
  block_summary : string;
  top_pro : string;
  top_con : string;
  block_statistics : option ReviewTools.Stats;
  block_full_analysis : string
}.

Record PriceBlock : Type := {
  price_available : bool;
  block_recommendation : string;
  recommendation_badge : string;
  block_current_price : option Q;
  block_average_price : option Q;
  lowest_price : option Q;
  highest_price : option Q;
  price_trend : string;
  price_change_percent : option Q;
  block_ai_recommendation : string;
  block_confidence : string;
  block_chart_data : option PriceTools.ChartData;
  history_days : Z
}.

Record FormattedProduct : Type := {
  rank : nat;
  formatted_id : Z;
  formatted_name : string;
  formatted_brand : option string;
  pricing : Pricing;
  ratings : Ratings;
  review_block : ReviewBlock;
  price_tracking : PriceBlock;
  original_data : Enriched
}.

Definition format_review (review : ReviewAnalyzerAgent.ReviewResult)
  : ReviewBlock :=
let trust := default 0%Q (ReviewAnalyzerAgent.trust_score review) in
{| review_available := default false (ReviewAnalyzerAgent.success review);
   block_sentiment := default "N/A" (ReviewAnalyzerAgent.sentiment review);
   sentiment_emoji :=
     _get_sentiment_emoji (default "Neutral" (ReviewAnalyzerAgent.sentiment review));
   block_trust_score := trust;
   trust_score_percent := percent_text (trust * 100);
   block_pros := default [] (ReviewAnalyzerAgent.pros review);
   block_cons := default [] (ReviewAnalyzerAgent.cons review);
   block_summary := default "" (ReviewAnalyzerAgent.summary review);
   top_pro :=
     match ReviewAnalyzerAgent.pros review with
     | Some (x :: _) => x
     | _ => "No pros available"
     end;
   top_con :=
     match ReviewAnalyzerAgent.cons review with
     | Some (x :: _) => x
     | _ => "No cons mentioned"
     end;
   block_statistics := ReviewAnalyzerAgent.statistics review;
   block_full_analysis := default "" (ReviewAnalyzerAgent.full_analysis review) |}.

(** [price.get(key, product['price'])] *)
Definition get_or_price (v : option (option Q)) (p : Product) : option Q :=
match v with
| Some x => x
| None => Some (price p)
end.

Definition format_price (p : Product) (analysis : PriceTrackerAgent.PriceAnalysis)
  : PriceBlock :=
{| price_available := default false (PriceTrackerAgent.success analysis);
   block_recommendation :=
     default "N/A" (PriceTrackerAgent.recommendation analysis);
   recommendation_badge :=
     _get_price_badge (default "wait" (PriceTrackerAgent.recommendation analysis));
   block_current_price := get_or_price (PriceTrackerAgent.current_price analysis) p;
   block_average_price := get_or_price (PriceTrackerAgent.average_price analysis) p;
   lowest_price := get_or_price (PriceTrackerAgent.min_price analysis) p;
   highest_price := get_or_price (PriceTrackerAgent.max_price analysis) p;
   price_trend := default "stable" (PriceTrackerAgent.trend analysis);
   price_change_percent :=
     default (Some 0%Q) (PriceTrackerAgent.price_change_pct analysis);
   block_ai_recommendation :=
     default "" (PriceTrackerAgent.ai_recommendation analysis);
   block_confidence := default "medium" (PriceTrackerAgent.confidence analysis);
   block_chart_data := PriceTrackerAgent.chart_data analysis;
   history_days := default 0%Z (PriceTrackerAgent.data_points analysis) |}.

(** One iteration of the loop over [enumerate(products, 1)].  The key
    [discount_pct] is not a key of the product dictionary, so the default 0
    is what [discount_percent] gets. *)
Definition format_product (i : nat) (e : Enriched) : FormattedProduct :=
let p := product e in
{| rank := i;
   formatted_id := id p;
   formatted_name := name p;
   formatted_brand := brand p;
   pricing := {| pricing_current_price := price p;
                 pricing_mrp := mrp p;
                 pricing_discount_percent := 0;
                 you_save := (mrp p - price p)%Q;
                 pricing_in_stock := in_stock p |};
   ratings := {| average_rating := rating p;
                 total_reviews := review_count p;
                 rating_badge := _get_rating_badge (rating p) |};
   review_block := format_review (review_analysis e);
   price_tracking := format_price p (price_analysis e);
   original_data := e |}.

Definition format_products (products : list Enriched) : list FormattedProduct :=
imap (λ i e, format_product (S i) e) products.

Record WinnerBlock : Type := {
  block_product_name : string;
  block_product_id : option Z;
  block_reason : string;
  block_value : string
}.

Record CategoryWinner : Type := {
  category_product_name : string;
  category_value : string;
  category_raw : option Q;
  category_reason : string
}.

Inductive FormattedComparison : Type :=
| ComparisonAvailable (winner : WinnerBlock)
    (price_winner rating_winner value_winner : CategoryWinner)
    (diff : option Differences) (ai_comparison : string)
    (table : option (TableData * string)) (full_comparison : ComparisonResult)
| ComparisonUnavailable (error : string).

(** Truth value of the comparison dictionary. *)
Definition truthy_comparison (c : ComparisonResult) : bool :=
bool_decide (is_Some (comparison_success c))
|| bool_decide (is_Some (comparison_error c))
|| bool_decide (is_Some (comparison_products c))
|| bool_decide (is_Some (winners c))
|| bool_decide (is_Some (differences c))
|| bool_decide (is_Some (ai_analysis c))
|| bool_decide (is_Some (frontend_table c)).

Definition category_winner (w : option Winner) (raw : option Q) : CategoryWinner :=
{| category_product_name := default "N/A" (winner_product <$> w);
   category_value := default "N/A" (winner_value <$> w);
   category_raw := raw;
   category_reason := default "" (winner_reason <$> w) |}.

Definition format_comparison (comparison : option ComparisonResult)
  : option FormattedComparison :=
match comparison with
| None => None
| Some c =>
    if truthy_comparison c then
      if default false (comparison_success c) then
        let ws := winners c in
        let overall := ws ≫= best_overall in
        let products := default [] (comparison_products c) in
        let winner_product_id :=
          cp_id <$>
            head (filter (λ p, Some (cp_name p) = (winner_product <$> overall))
                    products) in
        Some (ComparisonAvailable
          {| block_product_name := default "N/A" (winner_product <$> overall);
             block_product_id := winner_product_id;
             block_reason := default "N/A" (winner_reason <$> overall);
             block_value := default "" (winner_value <$> overall) |}
          (category_winner (ws ≫= best_price)
             (match cp_price <$> products with
              | x :: xs => Some (Qmin_list x xs)
              | [] => Some 0%Q
              end))
          (category_winner (ws ≫= best_rating)
             (match cp_rating <$> products with
              | x :: xs => Some (Qmax_list x xs)
              | [] => Some 0%Q
              end))
          {| category_product_name :=
               default "N/A" (winner_product <$> (ws ≫= best_value));
             category_value :=
               default "N/A" (winner_value <$> (ws ≫= best_value));
             category_raw := None;
             category_reason :=
               default "" (winner_reason <$> (ws ≫= best_value)) |}
          (differences c) (default "" (ai_analysis c)) (frontend_table c) c)
      else
        Some (ComparisonUnavailable
                (default "Comparison failed" (comparison_error c)))
    else None
end.

Record FormattedBuyPlan : Type := {
  plan_product_name : string;
  plan_product_price : Q;
  plan_emi_eligible : bool;
  plan_payment_options : list BuyPlanTools.PaymentOption;
  plan_regular_emi : list BuyPlanTools.EmiPlan;
  plan_no_cost_emi : list BuyPlanTools.EmiPlan;
  plan_best_instant_savings : option BuyPlanTools.PaymentOption;
  plan_best_cashback : option BuyPlanTools.PaymentOption;
  plan_best_emi : option BuyPlanTools.PaymentOption;
  plan_ai_recommendation : string;
  plan_summary : string;
  full_plan : BuyPlanTools.outcome BuyPlanOptimizerAgent.PurchasePlan
}.

(** The buy-plan block is built when the plan is there and its [error] is
    missing or empty. *)
Definition format_buyplan
    (buyplan : option (BuyPlanTools.outcome BuyPlanOptimizerAgent.PurchasePlan))
  : option FormattedBuyPlan :=
match buyplan with
| None => None
| Some (BuyPlanTools.Success plan) =>
    Some {| plan_product_name := BuyPlanOptimizerAgent.product_name plan;
            plan_product_price := BuyPlanOptimizerAgent.product_price plan;
            plan_emi_eligible := BuyPlanOptimizerAgent.emi_eligible plan;
            plan_payment_options := BuyPlanOptimizerAgent.payment_options plan;
            plan_regular_emi := BuyPlanOptimizerAgent.regular_emi_plans plan;
            plan_no_cost_emi := BuyPlanOptimizerAgent.no_cost_emi_plans plan;
            plan_best_instant_savings :=
              BuyPlanOptimizerAgent.best_instant_savings plan;
            plan_best_cashback := BuyPlanOptimizerAgent.best_cashback plan;
            plan_best_emi := BuyPlanOptimizerAgent.best_emi plan;
            plan_ai_recommendation := BuyPlanOptimizerAgent.ai_recommendation plan;
            plan_summary := BuyPlanOptimizerAgent.summary plan;
            full_plan := BuyPlanTools.Success plan |}
| Some (BuyPlanTools.Failure e) =>
    if String.eqb e "" then
      Some {| plan_product_name := "";
              plan_product_price := 0;
              plan_emi_eligible := false;
              plan_payment_options := [];
              plan_regular_emi := [];
              plan_no_cost_emi := [];
              plan_best_instant_savings := None;
              plan_best_cashback := None;
              plan_best_emi := None;
              plan_ai_recommendation := "";
              plan_summary := "";
              full_plan := BuyPlanTools.Failure e |}
    else None
end.

Record Summary : Type := {
  total_products_found : nat;
  top_recommendation : string;
  top_price : Q;
  top_rating : Q;
  summary_ai_recommendation : string
}.

Record Response : Type := {
  response_query : string;
  response_timestamp : Catalog.timestamp;
  execution_time_seconds : Q;
  response_summary : Summary;
  products : list FormattedProduct;
  comparison : option FormattedComparison;
  buy_plan : option FormattedBuyPlan;
  agents_used : list string;
  execution_type : string
}.

(** The two shapes of the reply: [{"success": True, ...}] and
    [{"success": False, "error": ..., "query": ...}]. *)
Inductive Reply : Type :=
| Recommendation (r : Response)
| ErrorReply (error query : string).


Definition _format_user_friendly_response (query : string)
    (enriched : list Enriched) (comparison : option ComparisonResult)
    (buyplan : option (BuyPlanTools.outcome BuyPlanOptimizerAgent.PurchasePlan))
    (ai_summary : string) (timestamp : Catalog.timestamp)
    (execution_time : Q) : Response :=
{| response_query := query;
   response_timestamp := timestamp;
   execution_time_seconds := round2 execution_time;
   response_summary :=
     {| total_products_found := length enriched;
        top_recommendation :=
          match enriched with e :: _ => name (product e) | [] => "N/A" end;
        top_price :=
          match enriched with e :: _ => price (product e) | [] => 0%Q end;
        top_rating :=
          match enriched with e :: _ => rating (product e) | [] => 0%Q end;
        summary_ai_recommendation := ai_summary |};
   products := format_products enriched;
   comparison := format_comparison comparison;
   buy_plan := format_buyplan buyplan;
   agents_used := ["Product Search"; "Review Analyzer"; "Price Tracker";
                   "Comparison Specialist"; "Buy Plan Optimizer"];
   execution_type := "parallel" |}.

(** *** The fan-out and the orchestration *)

(** What the awaited agent calls of one request did. *)
Record Tasks : Type := {
  review_calls : list (awaited ReviewAnalyzerAgent.ReviewResult);
  price_calls : list (awaited PriceTrackerAgent.PriceAnalysis);
  comparison_call : awaited ComparisonResult;
  buyplan_call :
    awaited (BuyPlanTools.outcome BuyPlanOptimizerAgent.PurchasePlan)
}.

(** How the wait for the four tasks ended: all of them completed, or the
    120 s ceiling fired and the flags say which tasks were done. *)
Inductive fan_in : Type :=
| Completed
| CeilingFired (review_done price_done comparison_done buyplan_done : bool).

(** The clock and the random generator of one request. *)
Record Environment : Type := {
  rng : draws;
  now : Catalog.timestamp;
  finished : Catalog.timestamp;
  execution_time : Q
}.

Context (_generate_fallback_summary : string → list Enriched → string).

Definition orchestrate (query : string) (top_n : nat)
    (search_result : SearchResult) (tasks : Tasks) (wait : fan_in)
    (env : Environment) : py Reply :=
if negb (search_success search_result)
   || bool_decide (search_products search_result = [])
then mret (ErrorReply "No products found matching your query" query)
else
  let products := take top_n (search_products search_result) in
  let product_ids := id <$> products in
  top_product_id ← getitem (head product_ids) "list index out of range";
  let comparison_ids := take (min 5 (length product_ids)) product_ids in
  let review_task := _analyze_all_reviews product_ids (review_calls tasks) in
  let price_task := _track_all_prices product_ids (price_calls tasks) in
  let comparison_task := _compare_products comparison_ids (comparison_call tasks) in
  let buyplan_task := _create_buy_plan (buyplan_call tasks) in
  let '(review_results, price_results, comparison_result, buyplan_result) :=
    match wait with
    | Completed =>
        (review_task, price_task, Some comparison_task, Some buyplan_task)
    | CeilingFired review_done price_done comparison_done buyplan_done =>
        (if review_done then review_task else ∅,
         if price_done then price_task else ∅,
         if comparison_done then Some comparison_task else None,
         if buyplan_done then Some buyplan_task else None)
    end in
  let enriched :=
    _enrich_products products review_results price_results (rng env) (now env) in
  let ai_summary := _generate_fallback_summary query enriched in
  mret (Recommendation
          (_format_user_friendly_response query enriched comparison_result
             buyplan_result ai_summary (finished env) (execution_time env))).

(** [orchestrate_recommendation]: an exception anywhere becomes an error
    reply. *)
Definition orchestrate_recommendation (query : string) (top_n : nat)
    (search_result : SearchResult) (tasks : Tasks) (wait : fan_in)
    (env : Environment) : Reply :=
match orchestrate query top_n search_result tasks wait env with
| Return reply => reply
| Raise e => ErrorReply e query
end.

(** *** Facts about the wrappers, the enrichment and the assembly *)

Lemma by_product_step_other {A} (ids : list Z) : ∀ (rs : list A) (m : gmap Z A) k,
  k ∉ ids →
  foldl (λ m pr, <[pr.1 := pr.2]> m) m (zip ids rs) !! k = m !! k.
Proof.
induction ids as [|k0 ids IH]; intros rs m k Hk; [done|].
destruct rs as [|r0 rs]; [done|]. simpl.
apply not_elem_of_cons in Hk as [Hne Hk].
rewrite IH by done. by rewrite lookup_insert_ne.
Qed.



Lemma by_product_dom {A} (ids : list Z) (rs : list A) k :
  is_Some (by_product ids rs !! k) → k ∈ ids.
Proof.
intros [v Hv]. destruct (decide (k ∈ ids)) as [|Hk]; [done|].
unfold by_product in Hv. rewrite by_product_step_other in Hv by done.
by rewrite lookup_empty in Hv.
Qed.












End Orchestration.

End Orchestrator.

(** * Properties *)

(** ** Hybrid fusion *)

(** C3. Fusion is the union of the two result sets keyed by product id; a
    product found only by the semantic leg scores 0.7 times its similarity,
    one found only by the predicate leg scores 0.3, one found by both scores
    the sum; the ranked list is the fused set sorted by score, highest first,
    cut to the limit. *)
Theorem combine_and_rank_fusion
    (semantic_results traditional_results : list Search.Hit) (limit : nat) :
  NoDup (Search.product_id <$> semantic_results) →
  NoDup (Search.product_id <$> traditional_results) →
  let fused :=
    dict_values (Search.combined_scores semantic_results traditional_results) in
  let in_semantic k := k ∈ Search.product_id <$> semantic_results in
  let in_predicate k := k ∈ Search.product_id <$> traditional_results in
  NoDup (Search.candidate_id <$> fused) ∧
  (∀ k, k ∈ Search.candidate_id <$> fused ↔ in_semantic k ∨ in_predicate k) ∧
  (∀ c, c ∈ fused →
     let k := Search.candidate_id c in
     (∀ s, s ∈ semantic_results → Search.product_id s = k →
        ¬ in_predicate k →
        Search.final_score c = (Search.similarity s * (7 # 10))%Q) ∧
     (¬ in_semantic k → Search.final_score c = (3 # 10)%Q) ∧
     (∀ s, s ∈ semantic_results → Search.product_id s = k →
        in_predicate k →
        Search.final_score c = (Search.similarity s * (7 # 10) + (3 # 10))%Q)) ∧
  ∃ ranked,
    ranked ≡ₚ fused ∧
    StronglySorted (desc Search.final_score) ranked ∧
    Search._combine_and_rank semantic_results traditional_results limit
    = take limit ranked.
Proof.
  intros Hs Ht fused in_semantic in_predicate.
  unfold Search._combine_and_rank. subst fused.
  unfold Search.combined_scores.
  destruct (Search.semantic_loop_inv semantic_results [])
    as (Hk0 & Hn0 & Hkeys0); [by intros ?? ?%elem_of_nil | constructor |].
  set (d0 := foldl Search.add_semantic [] semantic_results) in *.
  destruct (Search.traditional_loop_inv traditional_results d0 Hk0 Hn0)
    as (Hk & Hn & Hkeys).
  set (d := foldl Search.add_traditional d0 traditional_results) in *.
  set (fused := dict_values d).
  assert (Hids : Search.candidate_id <$> fused = dict_keys d).
  { unfold fused, dict_values, dict_keys.
    rewrite <- list_fmap_compose. apply list_fmap_ext.
    intros i [k c] Hi. simpl. apply Hk. by eapply list_elem_of_lookup_2. }
  split_and!.
  - by rewrite Hids.
  - intros k. rewrite Hids, Hkeys, Hkeys0, elem_of_nil.
    unfold in_semantic, in_predicate. tauto.
  - intros c Hc. cbv zeta. set (k := Search.candidate_id c).
    assert (Hget : dict_get k d = Some c).
    { unfold fused, dict_values in Hc. apply list_elem_of_fmap in Hc as ([k' c'] & -> & Hin).
      simpl in *. apply dict_lookup_unique; [done|].
      subst k. by rewrite (Hk _ _ Hin). }
    unfold d in Hget.
    split_and!.
    + intros s Hin Hid Hnt.
      rewrite Search.traditional_loop_other in Hget by done.
      unfold d0 in Hget. rewrite <- Hid in Hget.
      rewrite Search.semantic_loop_hit in Hget by done.
      by injection Hget as <-.
    + intros Hns.
      destruct (decide (in_predicate k)) as [Hp|Hnp].
      * apply list_elem_of_fmap in Hp as (r & Hkr & Hr).
        rewrite Hkr, Search.traditional_loop_hit in Hget by done.
        rewrite <- Hkr in Hget. unfold d0 in Hget.
        rewrite Search.semantic_loop_other in Hget by done.
        simpl in Hget. by injection Hget as <-.
      * exfalso.
        assert (k ∈ dict_keys d) as Hin.
        { apply dict_get_Some in Hget. apply list_elem_of_fmap. by exists (k, c). }
        apply Hkeys in Hin as [Hin|Hin]; [|done].
        apply Hkeys0 in Hin as [Hin|Hin]; [by apply elem_of_nil in Hin|done].
    + intros s Hin Hid Hp.
      apply list_elem_of_fmap in Hp as (r & Hkr & Hr).
      rewrite Hkr, Search.traditional_loop_hit in Hget by done.
      rewrite <- Hkr, <- Hid in Hget. unfold d0 in Hget.
      rewrite Search.semantic_loop_hit in Hget by done.
      by injection Hget as <-.
  - exists (sorted_desc Search.final_score fused). split_and!.
    + apply sorted_desc_perm.
    + apply sorted_desc_sorted.
    + done.
Qed.

Definition sample_hit (id : Z) (sim : option Q) (kw : option Q) : Search.Hit :=
  {| Search.product_id := id; Search.name := "p"; Search.price := 100;
     Search.rating := 4; Search.review_count := 10;
     Search.similarity_score := sim; Search.search_score := kw |}.

Lemma combine_and_rank_fusion_witness :
  let sem := [sample_hit 1 (Some (9 # 10)) None; sample_hit 2 (Some (4 # 10)) None] in
  let trad := [sample_hit 2 None (Some (3 # 10)); sample_hit 3 None (Some (3 # 10))] in
  Search.candidate_id <$> Search._combine_and_rank sem trad 2 = [1; 2]%Z ∧
  ∃ ranked,
    ranked ≡ₚ dict_values (Search.combined_scores sem trad) ∧
    StronglySorted (desc Search.final_score) ranked ∧
    Search._combine_and_rank sem trad 2 = take 2 ranked.
Proof.
  split; [reflexivity|].
  apply (combine_and_rank_fusion
           [sample_hit 1 (Some (9 # 10)) None; sample_hit 2 (Some (4 # 10)) None]
           [sample_hit 2 None (Some (3 # 10)); sample_hit 3 None (Some (3 # 10))]
           2%nat).
  - by compute_done.
  - by compute_done.
Defined.

(** ** EMI schedules *)


(** The regular-EMI inequality also needs a lower bound on the price: at
    price 0.04 the three-month installment rounds to 0.01. *)
Lemma regular_emi_small_price :
  ∃ plan,
    BuyPlanTools.calculate_emi_plans (4 # 100) BuyPlanTools.default_emi_tenures
      !! 0%nat = Some plan ∧
    (BuyPlanTools.emi_per_month plan
     * BuyPlanTools.months_Q (BuyPlanTools.tenure_months plan) < 4 # 100)%Q.
Proof.
  eexists. split; [vm_compute; reflexivity|]. vm_compute. reflexivity.
Qed.



(** ** Best EMI option of a purchase plan *)

Definition laptop : Catalog.Product :=
  {| Catalog.id := 1; Catalog.name := "Laptop"; Catalog.brand := Some "HP";
     Catalog.category := "Laptops"; Catalog.subcategory := None;
     Catalog.price := 60000; Catalog.mrp := Some 70000%Q;
     Catalog.rating := Some 4%Q; Catalog.review_count := Some 10%Z;
     Catalog.in_stock := Some true |}.

Definition hdfc_no_cost_emi : Catalog.CardOffer :=
  {| Catalog.offer_id := 1; Catalog.offer_product_id := 1;
     Catalog.bank_name := "HDFC"; Catalog.offer_type := Some "no_cost_emi";
     Catalog.discount_amount := None; Catalog.discount_percentage := None;
     Catalog.cashback_amount := None; Catalog.min_transaction_amount := None;
     Catalog.emi_tenure := Some "6"; Catalog.is_no_cost_emi := true;
     Catalog.offer_description := Some "No Cost EMI for 6 months";
     Catalog.valid_from := None; Catalog.valid_till := None |}.

Definition laptop_db : Catalog.Db :=
  {| Catalog.products := [laptop]; Catalog.reviews := [];
     Catalog.price_history := []; Catalog.card_offers := [hdfc_no_cost_emi] |}.

(** C7. The claim asks for a best EMI option whenever a no-cost schedule
    exists.  For a product with a no-cost EMI card offer over 6 months the
    plan carries four no-cost schedules and still [best_emi] is [None]: the
    offer is read without an EMI amount, no EMI payment option is built from
    it, and [create_purchase_plan] has no fallback to the schedules. *)
Theorem purchase_plan_best_emi_missing
    (ai : Catalog.Product → BuyPlanTools.Comparison → option string → string)
    (render : BuyPlanTools.Comparison → string → string) :
  ∃ plan,
    BuyPlanOptimizerAgent.create_purchase_plan ai render laptop_db 1 (Some "emi")
    = BuyPlanTools.Success plan ∧
    BuyPlanTools.tenure_months <$> BuyPlanOptimizerAgent.no_cost_emi_plans plan
    = [3; 6; 9; 12]%nat ∧
    BuyPlanTools.option_name <$> BuyPlanOptimizerAgent.payment_options plan
    = ["Full Price Payment"] ∧
    BuyPlanOptimizerAgent.best_emi plan = None.
Proof.
  eexists. split; [vm_compute; reflexivity|]. by split_and!.
Qed.

(** ** Price recommendation *)

Definition free_sample : Catalog.Product :=
  {| Catalog.id := 2; Catalog.name := "Sample"; Catalog.brand := None;
     Catalog.category := "Samples"; Catalog.subcategory := None;
     Catalog.price := 0; Catalog.mrp := None;
     Catalog.rating := Some 4%Q; Catalog.review_count := Some 3%Z;
     Catalog.in_stock := Some true |}.

Definition free_sample_db : Catalog.Db :=
  {| Catalog.products := [free_sample]; Catalog.reviews := [];
     Catalog.price_history :=
       [{| Catalog.ph_product_id := 2; Catalog.ph_price := 0;
           Catalog.recorded_at := 86400 |}];
     Catalog.card_offers := [] |}.

(** C6. For a product whose 30-day history is not empty but holds only the
    price 0, the rule of the claim gives [buy_now] (the current price 0 is
    within 5% of the minimum 0), but [calculate_price_trend] divides by the
    maximum price when it computes the price change and raises; the analysis
    is returned as a failure without any recommendation. *)
Theorem price_trend_zero_history_raises
    (narrate : string → PriceTools.TrendData → nat → string) :
  let now := 172800%Z in
  PriceTools.get_price_history free_sample_db now 2 30
  = [{| PriceTools.price := 0; PriceTools.date := 86400 |}] ∧
  PriceTools.buy_recommendation 0 0 0 "insufficient_data" = "buy_now" ∧
  PriceTools.calculate_price_trend free_sample_db now 2
  = Raise "float division by zero" ∧
  PriceTrackerAgent.analyze_price narrate free_sample_db now 2
  = PriceTrackerAgent.failed "float division by zero" ∧
  PriceTrackerAgent.recommendation
    (PriceTrackerAgent.analyze_price narrate free_sample_db now 2) = None.
Proof.
  intros now. split_and!; by vm_compute.
Qed.

(** ** Review analysis *)



(** Text functions used to run the agent on concrete inputs. *)
Definition no_themes (_ : list ReviewTools.ReviewEntry) : ReviewTools.Themes :=
  {| ReviewTools.positive := []; ReviewTools.negative := [] |}.
Definition plain_parse (text : string)
  : string * list string * list string * string :=
  ("Neutral", ["Overall positive feedback from customers"],
   ["Some minor issues reported"], text).
Definition plain_summary (_ : Q) (_ : Z) : string := "Product rated by customers".
Definition plain_text (sentiment : string) (_ : Z) : string := sentiment.

Definition review_row (pid rating : Z) (verified : bool) : Catalog.Review :=
  {| Catalog.review_product_id := pid; Catalog.review_rating := rating;
     Catalog.review_text := Some "good sound"; Catalog.helpful_count := 1;
     Catalog.verified_purchase := verified |}.

Definition reviewed_db : Catalog.Db :=
  {| Catalog.products := [laptop];
     Catalog.reviews := [review_row 1 5 true; review_row 1 3 false];
     Catalog.price_history := []; Catalog.card_offers := [] |}.



(** C9, as stated, fails on the text of the message: for a product without
    reviews the analyzer answers "No reviews found for this product". *)
Lemma zero_reviews_message_counterexample :
  let run :=
    ReviewAnalyzerAgent.analyze_reviews no_themes plain_parse plain_summary
      plain_text laptop_db 0 1 (ReviewAnalyzerAgent.Answered "SENTIMENT: Positive")
      ∅ 1 in
  ReviewTools.product_reviews laptop_db 1 = [] ∧
  ReviewAnalyzerAgent.success (ReviewAnalyzerAgent.result run) = Some false ∧
  ReviewAnalyzerAgent.message (ReviewAnalyzerAgent.result run)
  ≠ Some "No reviews found".
Proof. by split_and!. Qed.

(** C9 (amended). For a product that has no reviews, in any cache the agent
    can have built while the product had none, the analyzer returns the
    failure with the message "No reviews found for this product" and the
    product id, does not call the language model and leaves the cache as it
    is. *)
Theorem zero_reviews_no_llm
    (extract_themes : list ReviewTools.ReviewEntry → ReviewTools.Themes)
    (parse : string → string * list string * list string * string)
    (fallback_summary : Q → Z → string) (fallback_text : string → Z → string)
    (product_id : Z) (c : SimpleCache.store ReviewAnalyzerAgent.ReviewResult)
    (db : Catalog.Db) (now done_at : Z) (llm : ReviewAnalyzerAgent.llm_outcome) :
  ReviewAnalyzerAgent.reachable extract_themes parse fallback_summary
    fallback_text (λ db', ReviewTools.product_reviews db' product_id = []) c →
  ReviewTools.product_reviews db product_id = [] →
  let run :=
    ReviewAnalyzerAgent.analyze_reviews extract_themes parse fallback_summary
      fallback_text db now done_at llm c product_id in
  ReviewAnalyzerAgent.success (ReviewAnalyzerAgent.result run) = Some false ∧
  ReviewAnalyzerAgent.message (ReviewAnalyzerAgent.result run)
  = Some "No reviews found for this product" ∧
  ReviewAnalyzerAgent.product_id (ReviewAnalyzerAgent.result run)
  = Some product_id ∧
  ReviewAnalyzerAgent.error (ReviewAnalyzerAgent.result run) = None ∧
  ReviewAnalyzerAgent.llm_calls run = 0%nat ∧
  ReviewAnalyzerAgent.cache_after run = c.
Proof.
  intros Hc Hrows run. subst run.
  rewrite ReviewAnalyzerAgent.analyze_reviews_no_reviews;
    [by split_and! | done |].
  by eapply ReviewAnalyzerAgent.reachable_no_entry.
Qed.

Lemma zero_reviews_no_llm_witness :
  let c :=
    ReviewAnalyzerAgent.cache_after
      (ReviewAnalyzerAgent.analyze_reviews no_themes plain_parse plain_summary
         plain_text reviewed_db 0 1 ReviewAnalyzerAgent.TimedOut ∅ 1) in
  let run :=
    ReviewAnalyzerAgent.analyze_reviews no_themes plain_parse plain_summary
      plain_text reviewed_db 5 6 (ReviewAnalyzerAgent.Answered "ok") c 2 in
  c !! ReviewAnalyzerAgent.cache_key 1 ≠ None ∧
  ReviewAnalyzerAgent.message (ReviewAnalyzerAgent.result run)
  = Some "No reviews found for this product" ∧
  ReviewAnalyzerAgent.llm_calls run = 0%nat.
Proof.
  intros c run. split; [by vm_compute|].
  destruct (zero_reviews_no_llm no_themes plain_parse plain_summary plain_text
              2 c reviewed_db 5 6 (ReviewAnalyzerAgent.Answered "ok"))
    as (_ & Hm & _ & _ & Hl & _).
  - apply ReviewAnalyzerAgent.reachable_run; [constructor|done].
  - done.
  - by split.
Defined.

(** C10. In every cache the agent can have built, each stored value is a
    successful analysis.  A run whose result is not successful (no reviews,
    exception) adds nothing to the cache; a run that misses the cache for a
    product with reviews and whose model call answers or times out stores
    its successful result under the product's key; and a value served from
    the cache is successful and is returned without a model call. *)
Theorem review_cache_stores_successes
    (extract_themes : list ReviewTools.ReviewEntry → ReviewTools.Themes)
    (parse : string → string * list string * list string * string)
    (fallback_summary : Q → Z → string) (fallback_text : string → Z → string)
    (c : SimpleCache.store ReviewAnalyzerAgent.ReviewResult) :
  ReviewAnalyzerAgent.reachable extract_themes parse fallback_summary
    fallback_text (λ _, True) c →
  (∀ k v t, c !! k = Some (v, t) →
     ReviewAnalyzerAgent.success v = Some true) ∧
  ∀ db now done_at llm product_id,
    let key := ReviewAnalyzerAgent.cache_key product_id in
    let looked_up :=
      (SimpleCache.get ReviewAnalyzerAgent.review_ttl now key c).1 in
    let run :=
      ReviewAnalyzerAgent.analyze_reviews extract_themes parse fallback_summary
        fallback_text db now done_at llm c product_id in
    (ReviewAnalyzerAgent.success (ReviewAnalyzerAgent.result run) ≠ Some true →
       ReviewAnalyzerAgent.cache_after run ⊆ c) ∧
    (looked_up = None →
       ReviewTools.product_reviews db product_id ≠ [] →
       (∀ e, llm ≠ ReviewAnalyzerAgent.Errored e) →
       ReviewAnalyzerAgent.success (ReviewAnalyzerAgent.result run) = Some true ∧
       ReviewAnalyzerAgent.cache_after run !! key
       = Some (ReviewAnalyzerAgent.result run, done_at)) ∧
    (∀ v, looked_up = Some v →
       ReviewAnalyzerAgent.result run = v ∧
       ReviewAnalyzerAgent.success v = Some true ∧
       ReviewAnalyzerAgent.llm_calls run = 0%nat).
Proof.
  intros Hc.
  pose proof (ReviewAnalyzerAgent.reachable_good _ _ _ _ _ _ Hc) as Hgood.
  split.
  - intros k v t Hk. by destruct (Hgood k v t Hk).
  - intros db now done_at llm product_id key looked_up run. split_and!.
    + apply ReviewAnalyzerAgent.analyze_reviews_failure_not_cached.
    + intros Hmiss Hrows Hllm.
      destruct (ReviewAnalyzerAgent.analyze_reviews_caches_analysis
                  extract_themes parse fallback_summary fallback_text
                  db now done_at llm c product_id Hrows Hmiss Hllm)
        as (Hs & _ & Hk).
      by split.
    + intros v Hv. subst looked_up run key.
      destruct (SimpleCache.get _ _ _ c) as [o c1] eqn:Hget.
      simpl in Hv. subst o.
      pose proof Hget as Hhit.
      apply SimpleCache.get_hit in Hhit as [_ [t Hk]].
      pose proof (Hgood _ _ _ Hk) as Hv.
      rewrite (ReviewAnalyzerAgent.analyze_reviews_served _ _ _ _ _ _ _ _ _ _ v c1 Hget)
        by by apply ReviewAnalyzerAgent.good_entry_truthy.
      by destruct Hv.
Qed.

Lemma review_cache_stores_successes_witness :
  let c :=
    ReviewAnalyzerAgent.cache_after
      (ReviewAnalyzerAgent.analyze_reviews no_themes plain_parse plain_summary
         plain_text reviewed_db 0 1 ReviewAnalyzerAgent.TimedOut ∅ 1) in
  (∃ v, c !! ReviewAnalyzerAgent.cache_key 1 = Some (v, 1%Z)) ∧
  ∀ k v t, c !! k = Some (v, t) → ReviewAnalyzerAgent.success v = Some true.
Proof.
  intros c. split; [eexists; by vm_compute|].
  apply (review_cache_stores_successes no_themes plain_parse plain_summary
           plain_text c).
  apply ReviewAnalyzerAgent.reachable_run; [constructor|done].
Defined.

(** ** Orchestration *)

Section OrchestratorProperties.

Context {Differences TableData : Type}.
Context (table : list Orchestrator.ComparedProduct → TableData).
Context (percent : Q → string).
Context (summarize : string → list Orchestrator.Enriched → string).

Let run := Orchestrator.orchestrate_recommendation (Differences := Differences)
             table percent summarize.




End OrchestratorProperties.

(** *** Concrete requests *)












